(** * Solo-migration watchtower and validator activity process

    A shallow embedding of two pieces of the smartnode daemon:
    - [checkSoloMigrations] (watchtower task, src/unnamed/part_001): the
      single-flight [run], the per-minipool classification loop and
      [scrubVacantMinipool], the transaction pipeline it drives;
    - [ActivityProcess] (src/unnamed/part_000): the per-validator event loop
      that answers beacon-client events and sends heartbeats.

    Numbers follow the Go types: [uint64] and [int64] values are [Z] with
    their wrap-around written out, [*big.Int] values are [Z], 32-byte
    hashes ([common.Hash]) are 256-bit [Z] read big-endian, addresses and
    public keys are [Z]. Instants and durations follow Go's [time] package:
    an instant is its [(ext, nsec)] pair, a [Duration] an [int64] count
    of nanoseconds. *)

From stdpp Require Import base gmap list strings.
From Stdlib Require Import ZArith Lia.

Open Scope Z_scope.

(* ------------------------------------------------------------------ *)
(** ** Go integer conversions *)

(** [uint64] arithmetic wraps modulo 2^64. *)
Definition wrap_u64 (x : Z) : Z := x mod 2 ^ 64.

(** Conversion of a 64-bit pattern to [int64] (two's complement). *)
Definition to_int64 (x : Z) : Z :=
  let u := x mod 2 ^ 64 in if u <? 2 ^ 63 then u else u - 2 ^ 64.

(** [Uint64] method of [big.Int]: the low 64 bits of the absolute value. *)
Definition big_uint64 (x : Z) : Z := Z.abs x mod 2 ^ 64.

(** [Int64] method of [big.Int]: [v := int64(low64(x.abs)); if x.neg { v = -v }]. *)
Definition big_int64 (x : Z) : Z :=
  let v := to_int64 (Z.abs x) in if x <? 0 then to_int64 (- v) else v.

(** [big.NewInt(0).Div(x, y)]: Euclidean division, the floor for [y > 0]. *)
Definition big_div (x y : Z) : Z := x / y.

(** [eth.GweiToWei]. *)
Definition GweiToWei (x : Z) : Z := x * 10 ^ 9.

(** First byte of a [common.Hash] ([withdrawalCreds[0]]). *)
Definition hash_byte0 (h : Z) : Z := Z.land (Z.shiftr h 248) 255.

(* ------------------------------------------------------------------ *)
(** ** Network state snapshot *)

(** [types.MinipoolStatus] *)
Inductive MinipoolStatus :=
| Initialized | Prelaunch | Staking | Withdrawable | Dissolved.

#[global] Instance MinipoolStatus_eq_dec : EqDecision MinipoolStatus.
Proof. solve_decision. Defined.

(** [beacon.ValidatorState] is a Go [string] type; its zero value is [""]. *)
Definition ValidatorState := string.
Definition ValidatorState_ActiveOngoing : ValidatorState := "active_ongoing".

Module MinipoolDetails.
Record t := mk {
  MinipoolAddress : Z;
  Status : MinipoolStatus;
  IsVacant : bool;
  Pubkey : Z;
  PreMigrationBalance : Z;     (* wei, *big.Int *)
  Balance : Z;                 (* wei, *big.Int *)
  WithdrawalCredentials : Z;   (* common.Hash *)
  StatusTime : Z               (* unix seconds, *big.Int *)
}.
End MinipoolDetails.

Module ValidatorStatus.
Record t := mk {
  Exists : bool;
  Status : ValidatorState;
  Balance : Z;                 (* gwei, uint64 *)
  WithdrawalCredentials : Z    (* common.Hash *)
}.
(** The zero value a Go map lookup returns for a missing key. *)
Definition zero : t := mk false "" 0 0.
End ValidatorStatus.

Module NetworkState.
Record t := mk {
  BeaconSlotNumber : Z;        (* uint64 *)
  ElBlockNumber : Z;           (* uint64 *)
  GenesisTime : Z;             (* BeaconConfig.GenesisTime, uint64 *)
  SecondsPerSlot : Z;          (* BeaconConfig.SecondsPerSlot, uint64 *)
  PromotionScrubPeriod : Z;    (* NetworkDetails.PromotionScrubPeriod, seconds *)
  MinipoolDetails : list MinipoolDetails.t;
  ValidatorDetails : gmap Z ValidatorStatus.t
}.
End NetworkState.

(** [state.ValidatorDetails[pubkey]] *)
Definition lookup_validator (s : NetworkState.t) (pubkey : Z) : ValidatorStatus.t :=
  match NetworkState.ValidatorDetails s !! pubkey with
  | Some v => v
  | None => ValidatorStatus.zero
  end.

(* ------------------------------------------------------------------ *)
(** ** Constants and the snapshot's time context *)

Definition blsPrefix : Z := 0.
Definition elPrefix : Z := 1.

(** [uint64(32000000000)] *)
Definition threshold : Z := 32000000000.

(** [uint64(migrationBalanceBuffer * eth.WeiPerGwei)] = [uint64(0.001 * 1e9)]. *)
Definition buffer : Z := 1000000.

(** The Go [time] package on instants without a monotonic reading, which
    is every instant of the task (all come from [time.Unix]). *)
Module GoTime.

(** [time.Time]: [ext] seconds since January 1, year 1 (an [int64]), and
    the nanoseconds [nsec] of the [wall] field, in [[0, 1e9)]. *)
Record t := mk { ext : Z; nsec : Z }.

(** [time.Second], in nanoseconds; a [Duration] is an [int64] count of them. *)
Definition Second : Z := 10 ^ 9.
Definition minDuration : Z := - 2 ^ 63.
Definition maxDuration : Z := 2 ^ 63 - 1.

(** [unixToInternal = (1969*365 + 1969/4 - 1969/100 + 1969/400) * secondsPerDay]. *)
Definition unixToInternal : Z :=
  (1969 * 365 + 1969 / 4 - 1969 / 100 + 1969 / 400) * 86400.

(** [time.Unix(sec, 0)] = [unixTime(sec, 0)] = [Time{0, sec + unixToInternal, Local}]. *)
Definition Unix (sec : Z) : t := mk (to_int64 (sec + unixToInternal)) 0.

(** [t.addSec(d)]: [sum := t.ext + d]; if [(sum > t.ext) == (d > 0)] then
    [t.ext = sum], else [t.ext] saturates to [1<<63 - 1] or [-(1<<63 - 1)]. *)
Definition addSec (ext d : Z) : Z :=
  let sum := to_int64 (ext + d) in
  if Bool.eqb (ext <? sum) (0 <? d) then sum
  else if 0 <? d then 2 ^ 63 - 1 else - (2 ^ 63 - 1).

(** [t.Add(d)]: [dsec := d / 1e9], [nsec := t.nsec() + int32(d % 1e9)]
    (Go's [/] and [%] truncate), [nsec] brought back into [[0, 1e9)] by
    moving one second, then [t.addSec(dsec)]. *)
Definition Add (x : t) (d : Z) : t :=
  let dsec := Z.quot d Second in
  let ns := nsec x + Z.rem d Second in
  let '(dsec, ns) :=
    if Second <=? ns then (dsec + 1, ns - Second)
    else if ns <? 0 then (dsec - 1, ns + Second)
    else (dsec, ns) in
  mk (addSec (ext x) dsec) ns.

(** [t.Equal(u)]: [t.sec() == u.sec() && t.nsec() == u.nsec()]. *)
Definition Equal (x u : t) : bool := (ext x =? ext u) && (nsec x =? nsec u).

(** [t.Before(u)]: [ts < us || ts == us && t.nsec() < u.nsec()]. *)
Definition Before (x u : t) : bool :=
  (ext x <? ext u) || ((ext x =? ext u) && (nsec x <? nsec u)).

(** [t.Sub(u)]: [d := Duration(t.sec()-u.sec())*Second + Duration(t.nsec()-u.nsec())],
    each operation on [int64]; [d] if [u.Add(d).Equal(t)], else
    [minDuration] if [t.Before(u)], else [maxDuration]. *)
Definition Sub (x u : t) : Z :=
  let d := to_int64 (to_int64 (to_int64 (ext x - ext u) * Second) + (nsec x - nsec u)) in
  if Equal (Add u d) x then d
  else if Before x u then minDuration
  else maxDuration.

End GoTime.

(** [time.Duration(PromotionScrubPeriod.Seconds() * 0.85) * time.Second]:
    the float product truncated to whole seconds, then multiplied by
    [time.Second] in [int64]. For a whole-second period below 2^53 s the
    float64 product rounds to the exact rational [85 * P / 100] or to a
    value between the same two integers, so its truncation is the integer
    quotient below. *)
Definition scrubThreshold (s : NetworkState.t) : Z :=
  to_int64 (Z.quot (NetworkState.PromotionScrubPeriod s * 85) 100 * GoTime.Second).

(** [genesisTime := time.Unix(int64(state.BeaconConfig.GenesisTime), 0)] *)
Definition genesisTime (s : NetworkState.t) : GoTime.t :=
  GoTime.Unix (to_int64 (NetworkState.GenesisTime s)).

(** [time.Duration(BeaconSlotNumber * SecondsPerSlot) * time.Second]: a
    [uint64] product, converted to [int64], multiplied in [int64]. *)
Definition secondsForSlot (s : NetworkState.t) : Z :=
  to_int64 (to_int64 (wrap_u64 (NetworkState.BeaconSlotNumber s * NetworkState.SecondsPerSlot s))
            * GoTime.Second).

(** [blockTime := genesisTime.Add(secondsForSlot)] *)
Definition blockTime (s : NetworkState.t) : GoTime.t :=
  GoTime.Add (genesisTime s) (secondsForSlot s).

(* ------------------------------------------------------------------ *)
(** ** Classification of one minipool *)

(** The reason passed to [scrubVacantMinipool], one constructor per call site. *)
Inductive ScrubReason :=
| NotOnBeacon                          (* "did not exist on Beacon yet" *)
| WrongState (st : ValidatorState)     (* "was in state %v" *)
| TimedOut (creationTime blockTime : GoTime.t) (threshold : Z)
| CredentialsMismatch (expected actual : Z)
| UnexpectedPrefix (creds : Z)
| BelowThreshold (currentBalance : Z)
| BelowCreationBalance (currentBalance creationBalanceGwei : Z).

(** Balance check of the [elPrefix] branch, after the credentials matched. *)
Definition checkBalance (mpd : MinipoolDetails.t) (validator : ValidatorStatus.t)
  : list ScrubReason :=
  let oneGwei := GweiToWei 1 in
  let creationBalanceGwei :=
    big_uint64 (big_div (MinipoolDetails.PreMigrationBalance mpd) oneGwei) in
  let currentBalance := ValidatorStatus.Balance validator in
  let minipoolBalanceGwei :=
    big_uint64 (big_div (MinipoolDetails.Balance mpd) oneGwei) in
  let currentBalance := wrap_u64 (currentBalance + minipoolBalanceGwei) in
  if currentBalance <? threshold then [BelowThreshold currentBalance]
  else if currentBalance <? wrap_u64 (creationBalanceGwei - buffer)
  then [BelowCreationBalance currentBalance creationBalanceGwei]
  else [].

(** The [switch withdrawalCreds[0]] of the loop body. *)
Definition checkCredentials (s : NetworkState.t) (mpd : MinipoolDetails.t)
  (validator : ValidatorStatus.t) : list ScrubReason :=
  let withdrawalCreds := ValidatorStatus.WithdrawalCredentials validator in
  let b := hash_byte0 withdrawalCreds in
  if b =? blsPrefix then
    let creationTime := GoTime.Unix (big_int64 (MinipoolDetails.StatusTime mpd)) in
    let remainingTime := GoTime.Sub (GoTime.Add creationTime (scrubThreshold s)) (blockTime s) in
    if remainingTime <? 0
    then [TimedOut creationTime (blockTime s) (scrubThreshold s)]
    else []
  else if b =? elPrefix then
    if negb (withdrawalCreds =? MinipoolDetails.WithdrawalCredentials mpd)
    then [CredentialsMismatch (MinipoolDetails.WithdrawalCredentials mpd) withdrawalCreds]
    else checkBalance mpd validator
  else [UnexpectedPrefix withdrawalCreds].

(** The body of [for _, mpd := range state.MinipoolDetails]: the reasons of
    the [scrubVacantMinipool] calls it makes, in order. The [!validator.Exists]
    branch has no [continue], so evaluation falls through to the status check. *)
Definition classify (s : NetworkState.t) (mpd : MinipoolDetails.t) : list ScrubReason :=
  if decide (MinipoolDetails.Status mpd = Dissolved) then []
  else if negb (MinipoolDetails.IsVacant mpd) then []
  else
    let validator := lookup_validator s (MinipoolDetails.Pubkey mpd) in
    let unseen := if negb (ValidatorStatus.Exists validator) then [NotOnBeacon] else [] in
    unseen ++
    (if negb (bool_decide (ValidatorStatus.Status validator = ValidatorState_ActiveOngoing))
     then [WrongState (ValidatorStatus.Status validator)]
     else checkCredentials s mpd validator).

(** The scrub decisions of one scan: (minipool address, reason), in order. *)
Definition scrub_decisions (s : NetworkState.t) : list (Z * ScrubReason) :=
  flat_map (fun mpd => map (fun r => (MinipoolDetails.MinipoolAddress mpd, r)) (classify s mpd))
    (NetworkState.MinipoolDetails s).

(* ------------------------------------------------------------------ *)
(** ** Transaction submission pipeline *)

(** Errors as the task builds them: plain, or wrapped with [%w], possibly
    after an address ([fmt.Errorf("<ctx> %s: %w", address.Hex(), err)]). *)
Inductive error :=
| Error (msg : string)
| Wrapped (ctx : string) (inner : error)
| WrappedAt (ctx : string) (address : Z) (inner : error).

Inductive Result (A : Type) :=
| Ok (a : A)
| Err (e : error).
Arguments Ok {A} _.
Arguments Err {A} _.

(** [rocketpool.GasInfo] *)
Record GasInfo := { EstGasLimit : Z; SafeGasLimit : Z }.

(** The fields of [bind.TransactOpts] the task sets. *)
Record TxOpts := { GasFeeCap : Z; GasTipCap : Z; GasLimit : Z }.

(** What the task writes to its loggers. *)
Inductive Message :=
| MsgCheckingForMigrations                 (* "Checking for solo migrations..." *)
| MsgAlreadyRunning                        (* "... already running in the background." *)
| MsgStartingThread                        (* "Starting solo migration check ..." *)
| MsgCheckingSlot (slot elBlock : Z)       (* "Checking for Beacon slot %d (EL block %d)" *)
| MsgScrubBanner                           (* "=== SCRUBBING SOLO MIGRATION ===" *)
| MsgScrubMinipool (address : Z)           (* "Minipool: %s" *)
| MsgScrubReason (reason : ScrubReason)    (* "Reason:   %s" *)
| MsgScrubBannerEnd                        (* "================================" *)
| MsgGasInfo (g : GasInfo)                 (* printed by api.PrintAndCheckGasInfo *)
| MsgWaitingForTx (hash : Z)               (* printed by api.PrintAndWaitForTransaction *)
| MsgScrubSuccess (address : Z).           (* "Successfully voted to scrub minipool %s." *)

Inductive LogLine :=
| Info (prefix : option string) (m : Message)  (* t.log, with the task prefix or not *)
| ErrLine (e : error)                          (* t.errLog.Println(err) *)
| ErrBanner.                                   (* "*** Solo migration check failed. ***" *)

Definition generationPrefix : string := "[Solo Migration]".

(** [t.printMessage] *)
Definition printMessage (m : Message) : LogLine := Info (Some generationPrefix) m.

(** The collaborators [scrubVacantMinipool] calls, given by their results. *)
Record TxEnv := {
  NewMinipool : Z -> option error;              (* minipool.NewMinipool *)
  GetNodeAccountTransactor : option error;      (* t.w.GetNodeAccountTransactor *)
  EstimateVoteScrubGas : Z -> Result GasInfo;   (* mp.EstimateVoteScrubGas *)
  PrintAndCheckGasInfo : GasInfo -> Z -> bool;  (* gas info and max fee: go ahead? *)
  VoteScrub : Z -> TxOpts -> Result Z;          (* mp.VoteScrub: the tx hash *)
  PrintAndWaitForTransaction : Z -> option error;
  WatchtowerMaxFee : Z;                         (* getWatchtowerMaxFee, gwei *)
  WatchtowerPrioFee : Z                         (* getWatchtowerPrioFee, gwei *)
}.

(** A [VoteScrub] call: a transaction sent for a minipool with these options. *)
Definition Submission := (Z * TxOpts)%type.

(** [scrubVacantMinipool]: the log lines written, the transactions sent and
    the returned error. *)
Definition scrubVacantMinipool (env : TxEnv) (address : Z) (reason : ScrubReason)
  : list LogLine * list Submission * option error :=
  let header :=
    [printMessage MsgScrubBanner; printMessage (MsgScrubMinipool address);
     printMessage (MsgScrubReason reason); printMessage MsgScrubBannerEnd] in
  match NewMinipool env address with
  | Some err => (header, [], Some (WrappedAt "error scrubbing migration of minipool" address err))
  | None =>
  match GetNodeAccountTransactor env with
  | Some err => (header, [], Some err)
  | None =>
  match EstimateVoteScrubGas env address with
  | Err err =>
      (header, [], Some (Wrapped "could not estimate the gas required to scrub the minipool" err))
  | Ok gasInfo =>
      let maxFee := GweiToWei (WatchtowerMaxFee env) in
      let logs := header ++ [Info None (MsgGasInfo gasInfo)] in
      if negb (PrintAndCheckGasInfo env gasInfo maxFee) then (logs, [], None) else
      let opts := {| GasFeeCap := maxFee;
                     GasTipCap := GweiToWei (WatchtowerPrioFee env);
                     GasLimit := SafeGasLimit gasInfo |} in
      match VoteScrub env address opts with
      | Err err => (logs, [(address, opts)], Some err)
      | Ok hash =>
          let logs := logs ++ [Info None (MsgWaitingForTx hash)] in
          match PrintAndWaitForTransaction env hash with
          | Some err => (logs, [(address, opts)], Some err)
          | None => (logs ++ [Info None (MsgScrubSuccess address)], [(address, opts)], None)
          end
      end
  end end end.

(* ------------------------------------------------------------------ *)
(** ** The scan *)

(** The [scrubVacantMinipool] calls of one loop iteration; the returned
    error is not looked at ([t.scrubVacantMinipool(...)] as a statement). *)
Fixpoint scrub_each (env : TxEnv) (address : Z) (reasons : list ScrubReason)
  : list LogLine * list Submission :=
  match reasons with
  | [] => ([], [])
  | r :: rs =>
      let '(l1, t1, _) := scrubVacantMinipool env address r in
      let '(l2, t2) := scrub_each env address rs in
      (l1 ++ l2, t1 ++ t2)
  end.

Fixpoint scan_minipools (env : TxEnv) (s : NetworkState.t) (mpds : list MinipoolDetails.t)
  : list LogLine * list Submission :=
  match mpds with
  | [] => ([], [])
  | mpd :: rest =>
      let '(l1, t1) := scrub_each env (MinipoolDetails.MinipoolAddress mpd) (classify s mpd) in
      let '(l2, t2) := scan_minipools env s rest in
      (l1 ++ l2, t1 ++ t2)
  end.

(** [t.checkSoloMigrations(state)]: it always returns [nil]. *)
Definition checkSoloMigrations (env : TxEnv) (s : NetworkState.t)
  : list LogLine * list Submission * option error :=
  let '(logs, txs) := scan_minipools env s (NetworkState.MinipoolDetails s) in
  (printMessage (MsgCheckingSlot (NetworkState.BeaconSlotNumber s) (NetworkState.ElBlockNumber s))
     :: logs, txs, None).


(* ------------------------------------------------------------------ *)
(** ** [run]: the single-flight guard, as an interleaving of threads *)

Module SingleFlight.

(** Program points of one call of [run(state, isAtlasDeployed)]. The
    waits for client sync are taken as already satisfied. *)
Inductive RunPc :=
| RunEntered (isAtlasDeployed : bool)  (* about to test [isAtlasDeployed] and [t.isRunning] *)
| RunSpawning                          (* saw [!t.isRunning], lock released, before [go] *)
| RunReturned.

(** Program points of the goroutine started by [go func() { ... }()]. *)
Inductive ScanPc :=
| ScanLaunched   (* before [t.lock.Lock(); t.isRunning = true] *)
| ScanRunning    (* inside [t.checkSoloMigrations(state)] *)
| ScanFinished.  (* [t.isRunning = false] done, by [handleError] or at the end *)

#[global] Instance ScanPc_eq_dec : EqDecision ScanPc.
Proof. solve_decision. Defined.

Record World := mkWorld {
  isRunning : bool;        (* t.isRunning, guarded by t.lock *)
  calls : list RunPc;      (* the calls of [run] made so far *)
  scans : list ScanPc      (* the goroutines started so far *)
}.

Definition init : World := mkWorld false [] [].

Definition set_call (w : World) (i : nat) (pc : RunPc) : World :=
  mkWorld (isRunning w) (<[i := pc]> (calls w)) (scans w).

(** One atomic step: a critical section under [t.lock], or a lock-free action. *)
Inductive step : World -> World -> Prop :=
| step_invoke w atlas :
    step w (mkWorld (isRunning w) (calls w ++ [RunEntered atlas]) (scans w))
| step_not_deployed w i :
    calls w !! i = Some (RunEntered false) ->
    step w (set_call w i RunReturned)
| step_already_running w i :
    calls w !! i = Some (RunEntered true) -> isRunning w = true ->
    step w (set_call w i RunReturned)
| step_check_passed w i :
    calls w !! i = Some (RunEntered true) -> isRunning w = false ->
    step w (set_call w i RunSpawning)
| step_go w i :
    calls w !! i = Some RunSpawning ->
    step w (mkWorld (isRunning w) (<[i := RunReturned]> (calls w)) (scans w ++ [ScanLaunched]))
| step_mark_running w j :
    scans w !! j = Some ScanLaunched ->
    step w (mkWorld true (calls w) (<[j := ScanRunning]> (scans w)))
| step_scan_done w j :
    scans w !! j = Some ScanRunning ->
    step w (mkWorld false (calls w) (<[j := ScanFinished]> (scans w))).

(** Scans executing [checkSoloMigrations] at the same time. *)
Definition scans_in_flight (w : World) : nat :=
  length (filter (fun pc => pc = ScanRunning) (scans w)).

End SingleFlight.

(* ------------------------------------------------------------------ *)
(** ** Validator activity process *)

Module Activity.

(** [beaconchain.ServerMessage], as decoded from JSON. *)
Record ServerMessage := mkServerMessage {
  Message : string;
  Pubkey : string;
  StatusCode : string;   (* message.Status.Code *)
  Action : string;
  Error : string
}.

(** An event read by the process's [select]: a value from
    [connectedChannel], or one from [messageChannel] whose payload decodes
    ([Some]) or fails to decode ([None]). *)
Inductive Event :=
| Connected
| ClientMessage (m : option ServerMessage).

(** [beaconchain.ClientMessage] payloads sent through [p.p.Beacon.Send]. *)
Inductive Outbound :=
| GetValidatorStatus (pubkey : string)
| ActivityMsg (pubkey : string).

(** The process's mutable state: [p.validatorActive] and whether
    [p.stop] has been closed. *)
Record Proc := mkProc { validatorActive : bool; stopClosed : bool }.

Definition initial : Proc := mkProc false false.

Definition is_exit_code (c : string) : bool :=
  String.eqb c "exited" || String.eqb c "withdrawable" || String.eqb c "withdrawn".

(** [onBeaconClientConnected]: always asks for the validator status. *)
Definition onBeaconClientConnected (key : string) (p : Proc) : Proc * list Outbound :=
  (p, [GetValidatorStatus key]).

(** [onBeaconClientMessage]; [None] is the run-time panic of [close] on an
    already closed channel. [key] is [hex.EncodeToString] of the
    minipool's public key. *)
Definition onBeaconClientMessage (key : string) (p : Proc) (md : option ServerMessage)
  : option (Proc * list Outbound) :=
  match md with
  | None => Some (p, [])                              (* decode error: logged *)
  | Some m =>
    if String.eqb (Message m) "validator_status" then
      if negb (String.eqb key (Pubkey m)) then Some (p, [])
      else if String.eqb (StatusCode m) "inactive" then
        Some (mkProc false (stopClosed p), [])
      else if String.eqb (StatusCode m) "active" then
        Some (mkProc true (stopClosed p), [])
      else if is_exit_code (StatusCode m) then
        (* p.validatorActive = false; close(p.stop) *)
        if stopClosed p then None else Some (mkProc false true, [])
      else Some (p, [])
    else if String.eqb (Message m) "epoch" then
      if negb (validatorActive p) then Some (p, [])
      else Some (p, [ActivityMsg key])
    else Some (p, [])                                 (* "success", "error", others: logged *)
  end.

(** One iteration of the [select] that delivers an event. *)
Definition handle (key : string) (p : Proc) (ev : Event) : option (Proc * list Outbound) :=
  match ev with
  | Connected => Some (onBeaconClientConnected key p)
  | ClientMessage md => onBeaconClientMessage key p md
  end.

(** A sequence of delivered events, handled one at a time. *)
Definition run_events (key : string) (p : Proc) (evs : list Event)
  : option (Proc * list Outbound) :=
  fold_left (fun acc ev =>
    match acc with
    | None => None
    | Some (p, outs) =>
        match handle key p ev with
        | None => None
        | Some (p', outs') => Some (p', outs ++ outs')
        end
    end) evs (Some (p, [])).

(** The status code a delivered event applies: a [validator_status] message
    for [key] whose code is one of those the [switch] has a case for. *)
Definition applied_status (key : string) (ev : Event) : option string :=
  match ev with
  | ClientMessage (Some m) =>
      if String.eqb (Message m) "validator_status" && String.eqb key (Pubkey m)
         && (String.eqb (StatusCode m) "inactive" || String.eqb (StatusCode m) "active"
             || is_exit_code (StatusCode m))
      then Some (StatusCode m) else None
  | _ => None
  end.

Definition last_applied (key : string) (evs : list Event) : option string :=
  fold_left (fun acc ev =>
    match applied_status key ev with Some c => Some c | None => acc end) evs None.

Definition is_epoch (ev : Event) : bool :=
  match ev with
  | ClientMessage (Some m) => String.eqb (Message m) "epoch"
  | _ => false
  end.

Definition is_heartbeat (o : Outbound) : bool :=
  match o with ActivityMsg _ => true | _ => false end.

(** Handling [ev] in state [p] sends a heartbeat. *)
Definition heartbeat_sent (key : string) (p : Proc) (ev : Event) : bool :=
  match handle key p ev with
  | Some (_, outs) => existsb is_heartbeat outs
  | None => false
  end.

(** The event applies one of the exit-family codes to the process. *)
Definition exit_applied (key : string) (ev : Event) : bool :=
  match applied_status key ev with Some c => is_exit_code c | None => false end.

(** The running process: the event-loop goroutine of [start] and the
    thread blocked in its final [select]. *)
Record Loop := mkLoop {
  proc : Proc;
  subscribed : bool;     (* the goroutine's [subscribed] *)
  mainWaiting : bool;    (* [start] still blocked on [<-p.stop] *)
  doneSent : nat;        (* values sent on [p.done] *)
  crashed : bool;        (* a panic ended the program *)
  sent : list Outbound   (* everything sent to the beacon client *)
}.

Definition init_loop : Loop := mkLoop initial true true 0 false [].

(** The [select] picks any ready case: an event can be delivered while
    [p.stop] is already closed. *)
Inductive lstep (key : string) : Loop -> Loop -> Prop :=
| lstep_event l ev p' outs :
    subscribed l = true -> crashed l = false ->
    handle key (proc l) ev = Some (p', outs) ->
    lstep key l (mkLoop p' true (mainWaiting l) (doneSent l) false (sent l ++ outs))
| lstep_panic l ev :
    subscribed l = true -> crashed l = false ->
    handle key (proc l) ev = None ->
    lstep key l (mkLoop (proc l) true (mainWaiting l) (doneSent l) true (sent l))
| lstep_unsubscribe l :
    subscribed l = true -> crashed l = false -> stopClosed (proc l) = true ->
    lstep key l (mkLoop (proc l) false (mainWaiting l) (doneSent l) false (sent l))
| lstep_done l :
    mainWaiting l = true -> crashed l = false -> stopClosed (proc l) = true ->
    lstep key l (mkLoop (proc l) (subscribed l) false (S (doneSent l)) false (sent l)).

End Activity.

(* ------------------------------------------------------------------ *)
(** ** Error strings *)

(** Lower-case hexadecimal digit [n], for [0 <= n < 16]. *)
Definition hex_digit (n : Z) : string :=
  String.substring (Z.to_nat n) 1 "0123456789abcdef".

(** The last [k] hexadecimal digits of [x], most significant first. *)
Fixpoint hex_digits (k : nat) (x : Z) : string :=
  match k with
  | O => ""
  | S k' => String.append (hex_digits k' (x / 16)) (hex_digit (x mod 16))
  end.

(** [common.Address.Hex()]: "0x" and the 40 hex digits of the 20-byte
    address. The Go method also upper-cases some letter digits (the EIP-55
    checksum, a Keccak-256 hash of the digits); that case pattern is not
    computed here, the digits are. *)
Definition address_hex (a : Z) : string := String.append "0x" (hex_digits 40 a).

(** [err.Error()]: a [%w] wrap prints as "ctx: inner", one with an address
    as "ctx 0x...: inner". *)
Fixpoint error_string (e : error) : string :=
  match e with
  | Error msg => msg
  | Wrapped ctx inner => String.append ctx (String.append ": " (error_string inner))
  | WrappedAt ctx a inner =>
      String.append ctx (String.append " " (String.append (address_hex a)
        (String.append ": " (error_string inner))))
  end.

(* ------------------------------------------------------------------ *)
(** ** Service commands (src/rocketpool-cli/service/service.go) *)

Module Service.

(** The operations of the Rocket Pool client the commands call. *)
Inductive Op :=
| PrintServiceStatus
| StartService
| PauseService
| StopService
| PrintServiceLogs (serviceNames : list string)
| PrintServiceStats.

(** What a command does, in order. *)
Inductive Effect :=
| Prompt (question : string)     (* cliutils.Confirm *)
| Print (line : string)          (* fmt.Println *)
| GetClient                      (* services.GetRocketPoolClient *)
| CallOp (op : Op)               (* rp.PrintServiceStatus(), rp.StartService(), ... *)
| CloseClient.                   (* the deferred rp.Close() *)

Record Env := {
  Confirm : string -> bool;
  GetRocketPoolClient : option error;
  RunOp : Op -> option error
}.

Definition pauseQuestion : string :=
  "Are you sure you want to pause the Rocket Pool service? Any staking minipools will be penalized!".
Definition stopQuestion : string :=
  "Are you sure you want to stop the Rocket Pool service? Any staking minipools will be penalized, and ethereum nodes will lose sync progress!".

Definition serviceStatus (env : Env) : list Effect * option error :=
  match GetRocketPoolClient env with
  | Some err => ([GetClient], Some err)
  | None => ([GetClient; CallOp PrintServiceStatus; CloseClient], RunOp env PrintServiceStatus)
  end.

Definition startService (env : Env) : list Effect * option error :=
  match GetRocketPoolClient env with
  | Some err => ([GetClient], Some err)
  | None => ([GetClient; CallOp StartService; CloseClient], RunOp env StartService)
  end.

Definition pauseService (env : Env) : list Effect * option error :=
  if negb (Confirm env pauseQuestion) then ([Prompt pauseQuestion; Print "Cancelled."], None) else
  match GetRocketPoolClient env with
  | Some err => ([Prompt pauseQuestion; GetClient], Some err)
  | None => ([Prompt pauseQuestion; GetClient; CallOp PauseService; CloseClient],
             RunOp env PauseService)
  end.

Definition stopService (env : Env) : list Effect * option error :=
  if negb (Confirm env stopQuestion) then ([Prompt stopQuestion; Print "Cancelled."], None) else
  match GetRocketPoolClient env with
  | Some err => ([Prompt stopQuestion; GetClient], Some err)
  | None => ([Prompt stopQuestion; GetClient; CallOp StopService; CloseClient],
             RunOp env StopService)
  end.

Definition serviceLogs (env : Env) (serviceNames : list string) : list Effect * option error :=
  match GetRocketPoolClient env with
  | Some err => ([GetClient], Some err)
  | None => ([GetClient; CallOp (PrintServiceLogs serviceNames); CloseClient],
             RunOp env (PrintServiceLogs serviceNames))
  end.

Definition serviceStats (env : Env) : list Effect * option error :=
  match GetRocketPoolClient env with
  | Some err => ([GetClient], Some err)
  | None => ([GetClient; CallOp PrintServiceStats; CloseClient], RunOp env PrintServiceStats)
  end.

(** All six commands, [serviceLogs] with the given names. *)
Definition commands (serviceNames : list string) : list (Env -> list Effect * option error) :=
  [serviceStatus; startService; pauseService; stopService;
   (fun env => serviceLogs env serviceNames); serviceStats].

Definition is_call (e : Effect) : bool := match e with CallOp _ => true | _ => false end.
Definition is_close (e : Effect) : bool := match e with CloseClient => true | _ => false end.

End Service.

(* ------------------------------------------------------------------ *)
(** ** Node status command (src/rocketpool/api/node/status.go) *)

Module NodeStatus.

Record Balances := mkBalances { EtherWei : Z; RplWei : Z }.

(** The collaborators [getNodeStatus] calls, given by their results. *)
Record Env := {
  NodeAccountExists : bool;                  (* am.NodeAccountExists() *)
  NodeAccountAddress : Z;                    (* am.GetNodeAccount().Address *)
  Dial : option error;                       (* ethclient.Dial *)
  NewContractManager : option error;         (* rocketpool.NewContractManager *)
  LoadContracts : list string -> option error;
  LoadABIs : list string -> option error;
  GetAccountBalances : Z -> Result Balances; (* node.GetAccountBalances *)
  GetContract : Z -> Result Z;               (* rocketNodeAPI.getContract *)
  NewContract : Z -> option error;           (* rp.NewContract(.., "rocketNodeContract") *)
  GetTimezoneLocation : Z -> Result string;  (* rocketNodeAPI.getTimezoneLocation *)
  GetBalances : Z -> Result Balances         (* node.GetBalances(nodeContract) *)
}.

Inductive Call :=
| CDial | CNewContractManager
| CLoadContracts (names : list string) | CLoadABIs (names : list string)
| CGetAccountBalances (account : Z) | CGetContract (account : Z)
| CNewContract (contract : Z) | CGetTimezoneLocation (account : Z)
| CGetBalances (contract : Z).

(** The printed lines; the [%.2f] formatting of [eth.WeiToEth] is left out,
    the lines carry the wei amounts. *)
Inductive Line :=
| NotInitialized                                          (* "Node account has not been initialized" *)
| AccountBalances (account : Z) (b : Balances)            (* "Node account %s has a balance of ..." *)
| NotRegistered                                           (* "Node is not registered with Rocket Pool" *)
| Registered (contract : Z) (timezone : string) (b : Balances).

(** [getNodeStatus]: calls made, lines printed, returned error. The zero
    address test is [bytes.Equal(nodeContractAddress.Bytes(), make([]byte, 20))]. *)
Definition getNodeStatus (env : Env) : list Call * list Line * option error :=
  if negb (NodeAccountExists env) then ([], [NotInitialized], None) else
  let account := NodeAccountAddress env in
  let c1 := [CDial] in
  match Dial env with
  | Some err =>
      (c1, [], Some (Error (String.append "Error connecting to ethereum node: " (error_string err))))
  | None =>
  let c2 := c1 ++ [CNewContractManager] in
  match NewContractManager env with
  | Some err => (c2, [], Some err)
  | None =>
  let c3 := c2 ++ [CLoadContracts ["rocketNodeAPI"; "rocketPoolToken"]] in
  match LoadContracts env ["rocketNodeAPI"; "rocketPoolToken"] with
  | Some err => (c3, [], Some err)
  | None =>
  let c4 := c3 ++ [CLoadABIs ["rocketNodeContract"]] in
  match LoadABIs env ["rocketNodeContract"] with
  | Some err => (c4, [], Some err)
  | None =>
  let c5 := c4 ++ [CGetAccountBalances account] in
  match GetAccountBalances env account with
  | Err err => (c5, [], Some err)
  | Ok accountBalances =>
  let l1 := [AccountBalances account accountBalances] in
  let c6 := c5 ++ [CGetContract account] in
  match GetContract env account with
  | Err err =>
      (c6, l1, Some (Error (String.append "Error checking node registration: " (error_string err))))
  | Ok nodeContractAddress =>
  if nodeContractAddress =? 0 then (c6, l1 ++ [NotRegistered], None) else
  let c7 := c6 ++ [CNewContract nodeContractAddress] in
  match NewContract env nodeContractAddress with
  | Some err =>
      (c7, l1, Some (Error (String.append "Error initialising node contract: " (error_string err))))
  | None =>
  let c8 := c7 ++ [CGetTimezoneLocation account] in
  match GetTimezoneLocation env account with
  | Err err =>
      (c8, l1, Some (Error (String.append "Error retrieving node timezone: " (error_string err))))
  | Ok nodeTimezone =>
  let c9 := c8 ++ [CGetBalances nodeContractAddress] in
  match GetBalances env nodeContractAddress with
  | Err err => (c9, l1, Some err)
  | Ok balances => (c9, l1 ++ [Registered nodeContractAddress nodeTimezone balances], None)
  end end end end end end end end end.

Definition is_contract_call (c : Call) : bool :=
  match c with CNewContract _ | CGetTimezoneLocation _ | CGetBalances _ => true | _ => false end.

End NodeStatus.

(* ------------------------------------------------------------------ *)
(** ** [run] and its goroutine, one call at a time *)

(** The results of [services.WaitEthClientSynced] and [WaitBeaconClientSynced]. *)
Record SyncEnv := {
  WaitEthClientSynced : option error;
  WaitBeaconClientSynced : option error
}.

(** The synchronous part of [run], with [t.isRunning] as read under the
    lock: the log lines, the returned error, and whether [go func()] runs. *)
Definition run_sync (env : SyncEnv) (isAtlasDeployed isRunning : bool)
  : list LogLine * option error * bool :=
  match WaitEthClientSynced env with
  | Some err => ([], Some err, false)
  | None =>
  match WaitBeaconClientSynced env with
  | Some err => ([], Some err, false)
  | None =>
  if negb isAtlasDeployed then ([], None, false) else
  let logs := [Info None MsgCheckingForMigrations] in
  if isRunning then (logs ++ [Info None MsgAlreadyRunning], None, false)
  else (logs, None, true)
  end end.

(** [t.handleError]: two lines on the error logger, then [t.isRunning = false]. *)
Definition handleError (err : error) : list LogLine * bool :=
  ([ErrLine err; ErrBanner], false).

(** The body of the goroutine, after [t.isRunning = true]: its log lines,
    its transactions and the value it leaves in [t.isRunning].
    [fmt.Errorf("%s %w", t.generationPrefix, err)] prints as prefix, space, error. *)
Definition scan_goroutine (env : TxEnv) (s : NetworkState.t)
  : list LogLine * list Submission * bool :=
  let start := [printMessage MsgStartingThread] in
  let '(logs, txs, err) := checkSoloMigrations env s in
  match err with
  | Some e =>
      let '(elogs, flag) :=
        handleError (Error (String.append generationPrefix (String.append " " (error_string e)))) in
      (start ++ logs ++ elogs, txs, flag)
  | None => (start ++ logs, txs, false)
  end.

(* ------------------------------------------------------------------ *)
(** ** Sample inputs *)

(** Withdrawal credentials with first byte [b] and payload [x]. *)
Definition creds (b x : Z) : Z := Z.lor (Z.shiftl b 248) x.

(** A vacant minipool in prelaunch. *)
Definition vacant_mp (addr pubkey preMigWei balWei wc statusTime : Z) : MinipoolDetails.t :=
  MinipoolDetails.mk addr Prelaunch true pubkey preMigWei balWei wc statusTime.

Definition active_validator (balGwei wc : Z) : ValidatorStatus.t :=
  ValidatorStatus.mk true ValidatorState_ActiveOngoing balGwei wc.

(** A snapshot at block time [genesis + slot * 12], scrub period [P]. *)
Definition snapshot (genesis slot P : Z) (mps : list MinipoolDetails.t)
  (vals : gmap Z ValidatorStatus.t) : NetworkState.t :=
  NetworkState.mk slot 0 genesis 12 P mps vals.

(** Scenario M1: status change at T0 = 10000, scrub period 10000 s,
    block time T0 + 9000, prefix 0x00: timed out. *)
Example scenario_M1 :
  classify (snapshot 10000 750 10000 [] {[ 7 := active_validator 32000000000 (creds 0 5) ]})
    (vacant_mp 1 7 0 0 (creds 1 5) 10000)
  = [TimedOut (GoTime.Unix 10000) (GoTime.Unix 19000) (8500 * GoTime.Second)].
Proof. vm_compute. reflexivity. Qed.

(** Scenario M2: prefix 0x01, credentials 0x01aa.. expected, 0x01bb.. seen. *)
Example scenario_M2 :
  classify (snapshot 0 0 10000 [] {[ 7 := active_validator 32000000000 (creds 1 187) ]})
    (vacant_mp 1 7 (32 * 10 ^ 18) 0 (creds 1 170) 0)
  = [CredentialsMismatch (creds 1 170) (creds 1 187)].
Proof. vm_compute. reflexivity. Qed.

(** Scenario M3: matching credentials, creation balance 32 ETH, validator
    balance 31.999 ETH, minipool balance 0: below the threshold. *)
Example scenario_M3 :
  classify (snapshot 0 0 10000 [] {[ 7 := active_validator 31999000000 (creds 1 170) ]})
    (vacant_mp 1 7 (32 * 10 ^ 18) 0 (creds 1 170) 0)
  = [BelowThreshold 31999000000].
Proof. vm_compute. reflexivity. Qed.

(** Scenario M4: a minipool that is not vacant is skipped. *)
Example scenario_M4 :
  classify (snapshot 0 0 10000 [] ∅)
    (MinipoolDetails.mk 1 Staking false 7 0 0 (creds 1 170) 0) = [].
Proof. vm_compute. reflexivity. Qed.

(* ------------------------------------------------------------------ *)
(** ** Go time arithmetic away from overflow *)

Lemma to_int64_small (x : Z) : - 2 ^ 63 <= x < 2 ^ 63 -> to_int64 x = x.
Proof.
  intros Hx. unfold to_int64. destruct (Z.leb_spec 0 x).
  - rewrite Z.mod_small by lia.
    replace (x <? 2 ^ 63) with true by (symmetry; apply Z.ltb_lt; lia). reflexivity.
  - replace (x mod 2 ^ 64) with ((x + 1 * 2 ^ 64) mod 2 ^ 64) by (apply Z.mod_add; lia).
    rewrite Z.mod_small by lia.
    replace (x + 1 * 2 ^ 64 <? 2 ^ 63) with false by (symmetry; apply Z.ltb_ge; lia). lia.
Qed.

Lemma wrap_u64_small (x : Z) : 0 <= x < 2 ^ 64 -> wrap_u64 x = x.
Proof. intros Hx. unfold wrap_u64. apply Z.mod_small. exact Hx. Qed.

Lemma big_int64_small (x : Z) : 0 <= x < 2 ^ 63 -> big_int64 x = x.
Proof.
  intros Hx. unfold big_int64. rewrite Z.abs_eq by lia.
  replace (x <? 0) with false by (symmetry; apply Z.ltb_ge; lia).
  apply to_int64_small. lia.
Qed.

Module GoTimeFacts.
Import GoTime.

Lemma unixToInternal_value : unixToInternal = 62135596800.
Proof. reflexivity. Qed.

Lemma addSec_small (e d : Z) : - 2 ^ 63 <= e + d < 2 ^ 63 -> addSec e d = e + d.
Proof.
  intros H. unfold addSec. rewrite to_int64_small by exact H.
  destruct (Z.ltb_spec e (e + d)), (Z.ltb_spec 0 d); cbn [Bool.eqb];
    try reflexivity; exfalso; lia.
Qed.

(** Adding whole seconds to a whole-second instant. *)
Lemma Add_whole (e k : Z) : Add (mk e 0) (k * Second) = mk (addSec e k) 0.
Proof.
  unfold Add. cbn [ext nsec]. rewrite Z.quot_mul, Z.rem_mul by (unfold Second; lia).
  reflexivity.
Qed.

(** The difference of two whole-second instants, when it fits a [Duration]. *)
Lemma Sub_whole (a b : Z) :
  - 2 ^ 63 <= a < 2 ^ 63 -> - 2 ^ 63 <= b < 2 ^ 63 ->
  - 2 ^ 63 <= (a - b) * Second < 2 ^ 63 ->
  Sub (mk a 0) (mk b 0) = (a - b) * Second.
Proof.
  intros Ha Hb Hd. unfold Sub. cbn [ext nsec].
  assert (Hab : - 2 ^ 63 <= a - b < 2 ^ 63) by (unfold Second in Hd; lia).
  rewrite (to_int64_small (a - b)) by exact Hab.
  rewrite (to_int64_small ((a - b) * Second)) by exact Hd.
  rewrite Z.sub_diag, Z.add_0_r, (to_int64_small ((a - b) * Second)) by exact Hd.
  rewrite Add_whole, addSec_small by lia.
  replace (b + (a - b)) with a by ring.
  unfold Equal. cbn [ext nsec]. rewrite !Z.eqb_refl. reflexivity.
Qed.

End GoTimeFacts.

(* ------------------------------------------------------------------ *)
(** ** Classification: general facts *)

Section Reaching.
(** A vacant, non-dissolved minipool whose validator record exists and
    is [active_ongoing]: the loop body reaches the credentials switch. *)
Variables (s : NetworkState.t) (mpd : MinipoolDetails.t) (v : ValidatorStatus.t).
Hypothesis Hnd : MinipoolDetails.Status mpd <> Dissolved.
Hypothesis Hvac : MinipoolDetails.IsVacant mpd = true.
Hypothesis Hlook : lookup_validator s (MinipoolDetails.Pubkey mpd) = v.
Hypothesis Hex : ValidatorStatus.Exists v = true.
Hypothesis Hst : ValidatorStatus.Status v = ValidatorState_ActiveOngoing.

Lemma classify_reaching : classify s mpd = checkCredentials s mpd v.
Proof.
  unfold classify. destruct (decide _) as [Hd|_]; [contradiction|].
  rewrite Hvac. cbn [negb]. rewrite Hlook, Hex, Hst. cbn [negb app].
  rewrite bool_decide_true by reflexivity. reflexivity.
Qed.

Lemma classify_bls (Hb : hash_byte0 (ValidatorStatus.WithdrawalCredentials v) = blsPrefix) :
  classify s mpd =
  let creationTime := GoTime.Unix (big_int64 (MinipoolDetails.StatusTime mpd)) in
  if GoTime.Sub (GoTime.Add creationTime (scrubThreshold s)) (blockTime s) <? 0
  then [TimedOut creationTime (blockTime s) (scrubThreshold s)]
  else [].
Proof.
  rewrite classify_reaching. unfold checkCredentials. rewrite Hb, Z.eqb_refl. reflexivity.
Qed.

Lemma classify_other_prefix
  (Hb0 : hash_byte0 (ValidatorStatus.WithdrawalCredentials v) <> blsPrefix)
  (Hb1 : hash_byte0 (ValidatorStatus.WithdrawalCredentials v) <> elPrefix) :
  classify s mpd = [UnexpectedPrefix (ValidatorStatus.WithdrawalCredentials v)].
Proof.
  rewrite classify_reaching. unfold checkCredentials.
  apply Z.eqb_neq in Hb0, Hb1. rewrite Hb0, Hb1. reflexivity.
Qed.

(** The balances of the [elPrefix] branch, as the code computes them. *)
Definition creationBalanceGwei : Z :=
  big_uint64 (big_div (MinipoolDetails.PreMigrationBalance mpd) (GweiToWei 1)).
Definition combinedBalance : Z :=
  wrap_u64 (ValidatorStatus.Balance v
            + big_uint64 (big_div (MinipoolDetails.Balance mpd) (GweiToWei 1))).

Lemma classify_el (Hb : hash_byte0 (ValidatorStatus.WithdrawalCredentials v) = elPrefix) :
  classify s mpd =
  if negb (ValidatorStatus.WithdrawalCredentials v =? MinipoolDetails.WithdrawalCredentials mpd)
  then [CredentialsMismatch (MinipoolDetails.WithdrawalCredentials mpd)
                            (ValidatorStatus.WithdrawalCredentials v)]
  else if combinedBalance <? threshold then [BelowThreshold combinedBalance]
  else if combinedBalance <? wrap_u64 (creationBalanceGwei - buffer)
  then [BelowCreationBalance combinedBalance creationBalanceGwei]
  else [].
Proof.
  rewrite classify_reaching. unfold checkCredentials. rewrite Hb.
  cbn [Z.eqb elPrefix blsPrefix]. reflexivity.
Qed.

(** The [elPrefix] policy when neither [uint64] operation wraps. *)
Lemma classify_el_nowrap
  (Hb : hash_byte0 (ValidatorStatus.WithdrawalCredentials v) = elPrefix)
  (Hcb : buffer <= creationBalanceGwei)
  (Hvb : 0 <= ValidatorStatus.Balance v)
  (Hsum : ValidatorStatus.Balance v
          + big_uint64 (big_div (MinipoolDetails.Balance mpd) (GweiToWei 1)) < 2 ^ 64) :
  classify s mpd <> [] <->
  ValidatorStatus.WithdrawalCredentials v <> MinipoolDetails.WithdrawalCredentials mpd
  \/ ValidatorStatus.Balance v
     + big_uint64 (big_div (MinipoolDetails.Balance mpd) (GweiToWei 1)) < threshold
  \/ ValidatorStatus.Balance v
     + big_uint64 (big_div (MinipoolDetails.Balance mpd) (GweiToWei 1))
     < creationBalanceGwei - buffer.
Proof.
  rewrite classify_el by exact Hb.
  assert (Hmb : 0 <= big_uint64 (big_div (MinipoolDetails.Balance mpd) (GweiToWei 1)) < 2 ^ 64)
    by (unfold big_uint64; apply Z.mod_pos_bound; lia).
  assert (Hcr : 0 <= creationBalanceGwei < 2 ^ 64)
    by (unfold creationBalanceGwei, big_uint64; apply Z.mod_pos_bound; lia).
  assert (Hc : combinedBalance = ValidatorStatus.Balance v
            + big_uint64 (big_div (MinipoolDetails.Balance mpd) (GweiToWei 1)))
    by (unfold combinedBalance, wrap_u64; apply Z.mod_small; lia).
  assert (Hw : wrap_u64 (creationBalanceGwei - buffer) = creationBalanceGwei - buffer)
    by (unfold wrap_u64; apply Z.mod_small; unfold buffer in *; lia).
  rewrite Hw, <- Hc.
  destruct (Z.eqb_spec (ValidatorStatus.WithdrawalCredentials v)
                       (MinipoolDetails.WithdrawalCredentials mpd)); cbn [negb].
  - destruct (Z.ltb_spec combinedBalance threshold);
      [split; [intros; tauto | discriminate] |].
    destruct (Z.ltb_spec combinedBalance (creationBalanceGwei - buffer));
      split; intros; try discriminate; try tauto; lia.
  - split; [intros; tauto | discriminate].
Qed.

(** Below the buffer, [creationBalanceGwei - buffer] wraps, and the minipool
    is scrubbed exactly when its combined balance is below the wrapped value. *)
Lemma classify_el_underflow
  (Hb : hash_byte0 (ValidatorStatus.WithdrawalCredentials v) = elPrefix)
  (Hcr : ValidatorStatus.WithdrawalCredentials v = MinipoolDetails.WithdrawalCredentials mpd)
  (Hsmall : creationBalanceGwei < buffer) :
  (classify s mpd <> [] <-> combinedBalance < 2 ^ 64 + creationBalanceGwei - buffer)
  /\ (threshold <= combinedBalance < 2 ^ 64 + creationBalanceGwei - buffer ->
      classify s mpd = [BelowCreationBalance combinedBalance creationBalanceGwei]).
Proof.
  rewrite classify_el by exact Hb. rewrite Hcr, Z.eqb_refl. cbn [negb].
  assert (Hc0 : 0 <= creationBalanceGwei)
    by (unfold creationBalanceGwei, big_uint64; apply Z.mod_pos_bound; lia).
  assert (Hw : wrap_u64 (creationBalanceGwei - buffer) = 2 ^ 64 + creationBalanceGwei - buffer).
  { unfold wrap_u64.
    replace (creationBalanceGwei - buffer)
      with ((2 ^ 64 + creationBalanceGwei - buffer) + (-1) * 2 ^ 64) by ring.
    rewrite Z.mod_add by lia. apply Z.mod_small. unfold buffer in *; lia. }
  rewrite Hw. unfold threshold, buffer in *.
  destruct (Z.ltb_spec combinedBalance 32000000000);
    [split; [split; [intros; lia | discriminate] | intros; lia] |].
  destruct (Z.ltb_spec combinedBalance (2 ^ 64 + creationBalanceGwei - 1000000));
    split; try split; intros; try discriminate; try (exfalso; congruence); try lia;
    reflexivity.
Qed.

End Reaching.


(* ------------------------------------------------------------------ *)
(** ** What a scan logs *)

Definition reasons_logged (logs : list LogLine) : list ScrubReason :=
  omap (fun l => match l with Info _ (MsgScrubReason r) => Some r | _ => None end) logs.

Definition minipools_logged (logs : list LogLine) : list Z :=
  omap (fun l => match l with Info _ (MsgScrubMinipool a) => Some a | _ => None end) logs.

Definition errors_logged (logs : list LogLine) : list error :=
  omap (fun l => match l with ErrLine e => Some e | _ => None end) logs.

Lemma scrubVacantMinipool_logs (env : TxEnv) (address : Z) (reason : ScrubReason) :
  let '(logs, _, _) := scrubVacantMinipool env address reason in
  reasons_logged logs = [reason] /\ minipools_logged logs = [address]
  /\ errors_logged logs = [].
Proof.
  unfold scrubVacantMinipool.
  destruct (NewMinipool env address); [repeat split; reflexivity|].
  destruct (GetNodeAccountTransactor env); [repeat split; reflexivity|].
  destruct (EstimateVoteScrubGas env address) as [g|]; [|repeat split; reflexivity].
  destruct (PrintAndCheckGasInfo env g _); cbn [negb]; [|repeat split; reflexivity].
  destruct (VoteScrub env address _) as [h|]; [|repeat split; reflexivity].
  destruct (PrintAndWaitForTransaction env h); repeat split; reflexivity.
Qed.

Lemma scrub_each_logs (env : TxEnv) (address : Z) (rs : list ScrubReason) :
  reasons_logged (scrub_each env address rs).1 = rs
  /\ minipools_logged (scrub_each env address rs).1 = map (fun _ => address) rs
  /\ errors_logged (scrub_each env address rs).1 = [].
Proof.
  induction rs as [|r rs IH]; [repeat split; reflexivity|].
  cbn [scrub_each]. pose proof (scrubVacantMinipool_logs env address r) as Hs.
  destruct (scrubVacantMinipool env address r) as [[l1 t1] e1].
  destruct (scrub_each env address rs) as [l2 t2]. cbn [fst] in *.
  destruct Hs as (H1 & H2 & H3). destruct IH as (I1 & I2 & I3).
  unfold reasons_logged, minipools_logged, errors_logged in *.
  rewrite !omap_app, H1, H2, H3, I1, I2, I3. repeat split; reflexivity.
Qed.

Lemma scan_minipools_logs (env : TxEnv) (s : NetworkState.t) (mpds : list MinipoolDetails.t) :
  let decisions :=
    flat_map (fun mpd => map (fun r => (MinipoolDetails.MinipoolAddress mpd, r)) (classify s mpd)) mpds in
  reasons_logged (scan_minipools env s mpds).1 = map snd decisions
  /\ minipools_logged (scan_minipools env s mpds).1 = map fst decisions
  /\ errors_logged (scan_minipools env s mpds).1 = [].
Proof.
  induction mpds as [|mpd mpds IH]; [repeat split; reflexivity|].
  cbn [scan_minipools flat_map].
  pose proof (scrub_each_logs env (MinipoolDetails.MinipoolAddress mpd) (classify s mpd)) as Hs.
  destruct (scrub_each env _ (classify s mpd)) as [l1 t1].
  destruct (scan_minipools env s mpds) as [l2 t2]. cbn [fst] in *.
  destruct Hs as (H1 & H2 & H3). destruct IH as (I1 & I2 & I3).
  unfold reasons_logged, minipools_logged, errors_logged in *.
  rewrite !omap_app, H1, H2, H3, I1, I2, I3, !map_app, !map_map, map_id. cbn.
  repeat split; reflexivity.
Qed.

(** Everything a scan tells the logs about its decisions and errors. *)
Definition scan_outcome (r : list LogLine * list Submission * option error)
  : list Z * list ScrubReason * list error * option error :=
  let '(logs, _, ret) := r in
  (minipools_logged logs, reasons_logged logs, errors_logged logs, ret).

Lemma checkSoloMigrations_outcome (env : TxEnv) (s : NetworkState.t) :
  scan_outcome (checkSoloMigrations env s)
  = (map fst (scrub_decisions s), map snd (scrub_decisions s), [], None).
Proof.
  unfold checkSoloMigrations, scrub_decisions.
  pose proof (scan_minipools_logs env s (NetworkState.MinipoolDetails s)) as (H1 & H2 & H3).
  destruct (scan_minipools env s _) as [logs txs]. cbn [fst] in *.
  unfold scan_outcome, reasons_logged, minipools_logged, errors_logged in *.
  assert (Econs : forall B (f : LogLine -> option B) x l,
    omap f (x :: l) = match f x with Some y => y :: omap f l | None => omap f l end)
    by reflexivity.
  rewrite !Econs. cbn -[omap]. rewrite H1, H2, H3. reflexivity.
Qed.

(** [classify] reads the snapshot only through the minipool and validator
    records, the scrub period and the block time. *)
Lemma classify_snapshot_ext (s1 s2 : NetworkState.t) (mpd : MinipoolDetails.t)
  (Hv : NetworkState.ValidatorDetails s1 = NetworkState.ValidatorDetails s2)
  (HP : NetworkState.PromotionScrubPeriod s1 = NetworkState.PromotionScrubPeriod s2)
  (Hbt : blockTime s1 = blockTime s2) :
  classify s1 mpd = classify s2 mpd.
Proof.
  assert (Hth : scrubThreshold s1 = scrubThreshold s2) by (unfold scrubThreshold; rewrite HP; reflexivity).
  unfold classify, checkCredentials, lookup_validator. rewrite Hv, Hth, Hbt. reflexivity.
Qed.

(* ------------------------------------------------------------------ *)
(** ** Activity process: the [validatorActive] flag *)

Module ActivityFacts.
Import Activity.

Lemma exit_code_not_active (c : string) : is_exit_code c = true -> c <> "active".
Proof.
  unfold is_exit_code. intros H ->. vm_compute in H. discriminate.
Qed.


(** One handled event moves [validatorActive] as the status it applies says. *)
Lemma handle_active (key : string) (p p' : Proc) (ev : Event) (outs : list Outbound) :
  handle key p ev = Some (p', outs) ->
  (validatorActive p' = true <->
   match applied_status key ev with
   | Some c => c = "active"
   | None => validatorActive p = true
   end).
Proof.
  destruct ev as [|[m|]]; cbn [handle onBeaconClientConnected onBeaconClientMessage applied_status];
    intros H; try (injection H as <- <-; tauto).
  destruct (String.eqb (Message m) "validator_status") eqn:E; cbn [andb] in *.
  - destruct (String.eqb key (Pubkey m)) eqn:E0; cbn [negb andb] in *;
      [|injection H as <- <-; tauto].
    destruct (String.eqb (StatusCode m) "inactive") eqn:E1; cbn [orb] in *.
    { injection H as <- <-. cbn. apply String.eqb_eq in E1. rewrite E1.
      split; discriminate. }
    destruct (String.eqb (StatusCode m) "active") eqn:E2; cbn [orb] in *.
    { injection H as <- <-. cbn. apply String.eqb_eq in E2. tauto. }
    destruct (is_exit_code (StatusCode m)) eqn:E3; [|injection H as <- <-; tauto].
    destruct (stopClosed p); [discriminate|]. injection H as <- <-. cbn.
    split; [discriminate|]. intros Hc. destruct (exit_code_not_active _ E3 Hc).
  - destruct (String.eqb (Message m) "epoch"), (negb (validatorActive p));
      injection H as <- <-; tauto.
Qed.

(** [validatorActive] is [true] exactly when the last applied status is [active]. *)
Lemma run_events_active (key : string) (evs : list Event) (p : Proc) (outs : list Outbound) :
  run_events key initial evs = Some (p, outs) ->
  (validatorActive p = true <-> last_applied key evs = Some "active").
Proof.
  revert p outs. induction evs as [|ev evs IH] using rev_ind; intros p outs H.
  - injection H as <- <-. cbn. split; discriminate.
  - unfold run_events, last_applied in *. rewrite !fold_left_app in *. cbn in H |- *.
    destruct (fold_left _ evs (Some (initial, []))) as [[p0 o0]|] eqn:E0; [|discriminate].
    destruct (handle key p0 ev) as [[p1 o1]|] eqn:E1; [|discriminate].
    injection H as <- <-. rewrite (handle_active key p0 p1 ev o1 E1).
    specialize (IH p0 o0 eq_refl).
    destruct (applied_status key ev); [split; congruence | exact IH].
Qed.

Lemma heartbeat_sent_iff (key : string) (p : Proc) (ev : Event) :
  heartbeat_sent key p ev = true <-> is_epoch ev = true /\ validatorActive p = true.
Proof.
  unfold heartbeat_sent.
  destruct ev as [|[m|]]; cbn [handle onBeaconClientConnected onBeaconClientMessage is_epoch];
    [cbn; intuition congruence | | cbn; intuition congruence].
  destruct (String.eqb (Message m) "validator_status") eqn:E.
  - assert (Ee : String.eqb (Message m) "epoch" = false)
      by (apply String.eqb_eq in E; rewrite E; reflexivity).
    rewrite Ee.
    destruct (String.eqb key (Pubkey m)), (String.eqb (StatusCode m) "inactive"),
      (String.eqb (StatusCode m) "active"), (is_exit_code (StatusCode m)), (stopClosed p);
      cbn; intuition congruence.
  - destruct (String.eqb (Message m) "epoch"), (validatorActive p); cbn; intuition congruence.
Qed.

End ActivityFacts.

(* ------------------------------------------------------------------ *)
(** ** Sample collaborators and events *)

Definition sample_gas : GasInfo := {| EstGasLimit := 100000; SafeGasLimit := 150000 |}.

(** Every call succeeds; the transaction hash is the minipool address. *)
Definition env_all_ok : TxEnv := {|
  NewMinipool := fun _ => None;
  GetNodeAccountTransactor := None;
  EstimateVoteScrubGas := fun _ => Ok sample_gas;
  PrintAndCheckGasInfo := fun _ _ => true;
  VoteScrub := fun a _ => Ok a;
  PrintAndWaitForTransaction := fun _ => None;
  WatchtowerMaxFee := 200;
  WatchtowerPrioFee := 2 |}.

(** Gas estimation reverts for minipool 1. *)
Definition env_estimate_fails : TxEnv := {|
  NewMinipool := fun _ => None;
  GetNodeAccountTransactor := None;
  EstimateVoteScrubGas := fun a => if a =? 1 then Err (Error "execution reverted") else Ok sample_gas;
  PrintAndCheckGasInfo := fun _ _ => true;
  VoteScrub := fun a _ => Ok a;
  PrintAndWaitForTransaction := fun _ => None;
  WatchtowerMaxFee := 200;
  WatchtowerPrioFee := 2 |}.

(** The max-fee gate says no. *)
Definition env_gas_veto : TxEnv := {|
  NewMinipool := fun _ => None;
  GetNodeAccountTransactor := None;
  EstimateVoteScrubGas := fun _ => Ok sample_gas;
  PrintAndCheckGasInfo := fun _ _ => false;
  VoteScrub := fun a _ => Ok a;
  PrintAndWaitForTransaction := fun _ => None;
  WatchtowerMaxFee := 200;
  WatchtowerPrioFee := 2 |}.

Definition status_msg (key code : string) : Activity.Event :=
  Activity.ClientMessage (Some (Activity.mkServerMessage "validator_status" key code "" "")).

Definition epoch_msg : Activity.Event :=
  Activity.ClientMessage (Some (Activity.mkServerMessage "epoch" "" "" "" "")).

(** Two eligible minipools: 1 has no validator record, 2 timed out. *)
Definition two_minipools : NetworkState.t :=
  snapshot 10000 750 10000
    [vacant_mp 1 7 0 0 (creds 1 170) 0; vacant_mp 2 8 0 0 (creds 1 171) 10000]
    {[ 8 := active_validator 32000000000 (creds 0 171) ]}.

Example two_minipools_decisions :
  scrub_decisions two_minipools
  = [(1, NotOnBeacon); (1, WrongState ""); (2, TimedOut (GoTime.Unix 10000) (GoTime.Unix 19000) (8500 * GoTime.Second))].
Proof. vm_compute. reflexivity. Qed.

(** The failing estimate for minipool 1 is returned by [scrubVacantMinipool]. *)
Example estimate_failure_returned :
  (scrubVacantMinipool env_estimate_fails 1 NotOnBeacon).2
  = Some (Wrapped "could not estimate the gas required to scrub the minipool"
            (Error "execution reverted")).
Proof. reflexivity. Qed.

(* ------------------------------------------------------------------ *)
(** ** Claims: classification *)

(** C1 (code_bug). A vacant, active_ongoing minipool with matching 0x01
    credentials, a combined balance of exactly 32_000_000_000 gwei and a
    pre-migration balance of 0: the spec's policy does not scrub it
    (combined balance is not below 32_000_000_000, nor below 0 - 1_000_000),
    but [creationBalanceGwei - buffer] wraps to 2^64 - 1_000_000 and the
    code scrubs it as "lower than the creation balance". *)
Theorem balance_check_underflow_scrubs :
  let v := active_validator 32000000000 (creds 1 170) in
  let mpd := vacant_mp 1 7 0 0 (creds 1 170) 0 in
  let s := snapshot 1606824023 100 10000 [mpd] {[ 7 := v ]} in
  hash_byte0 (ValidatorStatus.WithdrawalCredentials v) = elPrefix
  /\ ValidatorStatus.WithdrawalCredentials v = MinipoolDetails.WithdrawalCredentials mpd
  /\ ~ (combinedBalance mpd v < threshold)
  /\ ~ (combinedBalance mpd v < creationBalanceGwei mpd - buffer)
  /\ classify s mpd = [BelowCreationBalance 32000000000 0].
Proof.
  cbv zeta. repeat split; try (intro H; vm_compute in H; discriminate);
    vm_compute; reflexivity.
Qed.

(** C6 (code_bug). A vacant, non-dissolved minipool whose public key has no
    validator record gets two scrub calls in one scan: "did not exist on
    Beacon yet", then, for lack of a [continue], "was in state" with the
    zero-value status [""]. *)
Theorem missing_validator_scrubbed_twice (s : NetworkState.t) (mpd : MinipoolDetails.t)
  (Hnd : MinipoolDetails.Status mpd <> Dissolved)
  (Hvac : MinipoolDetails.IsVacant mpd = true)
  (Hnone : NetworkState.ValidatorDetails s !! MinipoolDetails.Pubkey mpd = None) :
  classify s mpd = [NotOnBeacon; WrongState ""].
Proof.
  unfold classify. destruct (decide _) as [Hd|_]; [contradiction|].
  rewrite Hvac. unfold lookup_validator. rewrite Hnone. reflexivity.
Qed.

Lemma missing_validator_scrubbed_twice_witness :
  Prelaunch <> Dissolved /\ true = true
  /\ NetworkState.ValidatorDetails two_minipools !! 7 = None
  /\ classify two_minipools (vacant_mp 1 7 0 0 (creds 1 170) 0) = [NotOnBeacon; WrongState ""].
Proof.
  split; [discriminate|]. split; [reflexivity|]. split; [vm_compute; reflexivity|].
  apply (missing_validator_scrubbed_twice two_minipools (vacant_mp 1 7 0 0 (creds 1 170) 0)).
  - discriminate.
  - reflexivity.
  - vm_compute. reflexivity.
Defined.

(** C10. For a vacant minipool reaching the balance check whose creation
    balance is below 1_000_000 gwei, [creationBalanceGwei - buffer] is a
    [uint64] subtraction that wraps to 2^64 + creationBalanceGwei - 1_000_000.
    For every combined balance below 2^64 - 1_000_000 gwei (about 1.8e10
    ETH, far above any balance a validator and a minipool can hold) the
    minipool is therefore scrubbed, also when its combined balance is not
    below its creation balance; from 32_000_000_000 gwei on, the scrub is
    the "lower than the creation balance" one. *)
Theorem underflow_always_scrubbed
  (s : NetworkState.t) (mpd : MinipoolDetails.t) (v : ValidatorStatus.t)
  (Hnd : MinipoolDetails.Status mpd <> Dissolved)
  (Hvac : MinipoolDetails.IsVacant mpd = true)
  (Hlook : lookup_validator s (MinipoolDetails.Pubkey mpd) = v)
  (Hex : ValidatorStatus.Exists v = true)
  (Hst : ValidatorStatus.Status v = ValidatorState_ActiveOngoing)
  (Hb : hash_byte0 (ValidatorStatus.WithdrawalCredentials v) = elPrefix)
  (Hcr : ValidatorStatus.WithdrawalCredentials v = MinipoolDetails.WithdrawalCredentials mpd)
  (Hsmall : creationBalanceGwei mpd < 1000000)
  (Hreal : combinedBalance mpd v < 2 ^ 64 - 1000000) :
  wrap_u64 (creationBalanceGwei mpd - buffer) = 2 ^ 64 + creationBalanceGwei mpd - 1000000
  /\ classify s mpd <> []
  /\ (32000000000 <= combinedBalance mpd v ->
      classify s mpd = [BelowCreationBalance (combinedBalance mpd v) (creationBalanceGwei mpd)]).
Proof.
  assert (Hc0 : 0 <= creationBalanceGwei mpd)
    by (unfold creationBalanceGwei, big_uint64; apply Z.mod_pos_bound; lia).
  destruct (classify_el_underflow s mpd v Hnd Hvac Hlook Hex Hst Hb Hcr Hsmall) as [Hiff Hbelow].
  unfold threshold, buffer in *.
  split; [|split].
  - unfold wrap_u64.
    replace (creationBalanceGwei mpd - 1000000)
      with ((2 ^ 64 + creationBalanceGwei mpd - 1000000) + (-1) * 2 ^ 64) by ring.
    rewrite Z.mod_add by lia. apply Z.mod_small. lia.
  - apply Hiff. lia.
  - intros Hge. apply Hbelow. lia.
Qed.

Lemma underflow_always_scrubbed_witness :
  let v := active_validator 32000000000 (creds 1 170) in
  let mpd := vacant_mp 1 7 0 0 (creds 1 170) 0 in
  let s := snapshot 1606824023 100 10000 [mpd] {[ 7 := v ]} in
  creationBalanceGwei mpd < 1000000
  /\ creationBalanceGwei mpd <= combinedBalance mpd v < 2 ^ 64 - 1000000
  /\ classify s mpd = [BelowCreationBalance 32000000000 0].
Proof.
  cbv zeta. split; [vm_compute; reflexivity|].
  split; [split; vm_compute; first [reflexivity | discriminate]|].
  refine (proj2 (proj2 (underflow_always_scrubbed
           (snapshot 1606824023 100 10000 [vacant_mp 1 7 0 0 (creds 1 170) 0]
              {[ 7 := active_validator 32000000000 (creds 1 170) ]})
           (vacant_mp 1 7 0 0 (creds 1 170) 0) (active_validator 32000000000 (creds 1 170))
           _ _ _ _ _ _ _ _ _)) _).
  - discriminate.
  - reflexivity.
  - vm_compute. reflexivity.
  - reflexivity.
  - reflexivity.
  - vm_compute. reflexivity.
  - reflexivity.
  - vm_compute. reflexivity.
  - vm_compute. reflexivity.
  - vm_compute. discriminate.
Defined.

(* ------------------------------------------------------------------ *)
(** ** Claims: single flight *)

(** C2 (code_bug). Two calls of [run] with the migration feature enabled
    both read [t.isRunning = false] before either goroutine has set it
    (the flag is set inside the goroutine, not in the critical section that
    tests it): both return [nil] and two scans execute at the same time. *)
Theorem two_scans_in_flight :
  exists w, rtc SingleFlight.step SingleFlight.init w
    /\ SingleFlight.calls w = [SingleFlight.RunReturned; SingleFlight.RunReturned]
    /\ SingleFlight.scans_in_flight w = 2%nat.
Proof.
  eexists. split.
  - eapply rtc_l; [apply (SingleFlight.step_invoke _ true)|].
    eapply rtc_l; [apply (SingleFlight.step_invoke _ true)|].
    eapply rtc_l; [apply (SingleFlight.step_check_passed _ 0); reflexivity|].
    eapply rtc_l; [apply (SingleFlight.step_check_passed _ 1); reflexivity|].
    eapply rtc_l; [apply (SingleFlight.step_go _ 0); reflexivity|].
    eapply rtc_l; [apply (SingleFlight.step_go _ 1); reflexivity|].
    eapply rtc_l; [apply (SingleFlight.step_mark_running _ 0); reflexivity|].
    eapply rtc_l; [apply (SingleFlight.step_mark_running _ 1); reflexivity|].
    apply rtc_refl.
  - split; reflexivity.
Qed.

(* ------------------------------------------------------------------ *)
(** ** Claims: activity process *)

(** C3. For every sequence of events the process handles, handling one more
    event sends a heartbeat exactly when that event is an epoch and the last
    applied [validator_status] for this key was [active]; in the initial
    state ([last_applied = None]) and after [inactive] no heartbeat is sent. *)
Theorem heartbeat_iff_last_applied_active (key : string) (evs : list Activity.Event)
  (p : Activity.Proc) (outs : list Activity.Outbound) (ev : Activity.Event)
  (Hrun : Activity.run_events key Activity.initial evs = Some (p, outs)) :
  Activity.heartbeat_sent key p ev = true
  <-> Activity.is_epoch ev = true /\ Activity.last_applied key evs = Some "active".
Proof.
  rewrite ActivityFacts.heartbeat_sent_iff, (ActivityFacts.run_events_active key evs p outs Hrun).
  reflexivity.
Qed.

Lemma heartbeat_iff_last_applied_active_witness :
  Activity.run_events "aa" Activity.initial [status_msg "aa" "active"]
    = Some (Activity.mkProc true false, [])
  /\ (Activity.heartbeat_sent "aa" (Activity.mkProc true false) epoch_msg = true
      <-> Activity.is_epoch epoch_msg = true
          /\ Activity.last_applied "aa" [status_msg "aa" "active"] = Some "active").
Proof.
  split; [reflexivity|].
  apply (heartbeat_iff_last_applied_active "aa" [status_msg "aa" "active"]
           (Activity.mkProc true false) []).
  reflexivity.
Defined.

(** C4 (code_bug). After an [exited] status closes [p.stop], the event
    loop's [select] may still take a ready message instead of [<-p.stop]:
    an [active] status followed by an epoch then sends a heartbeat. *)
Theorem heartbeat_after_exit_status :
  let k := "aa" in
  let l1 := Activity.mkLoop (Activity.mkProc false true) true true 0 false [] in
  let l2 := Activity.mkLoop (Activity.mkProc true true) true true 0 false [] in
  let l3 := Activity.mkLoop (Activity.mkProc true true) true true 0 false [Activity.ActivityMsg k] in
  Activity.handle k Activity.initial (status_msg k "exited") = Some (Activity.proc l1, [])
  /\ Activity.lstep k Activity.init_loop l1
  /\ Activity.lstep k l1 l2 /\ Activity.lstep k l2 l3
  /\ Activity.sent l1 = [] /\ Activity.sent l3 = [Activity.ActivityMsg k].
Proof.
  cbv zeta. repeat split.
  - apply (Activity.lstep_event "aa" Activity.init_loop (status_msg "aa" "exited")
             (Activity.mkProc false true) []); reflexivity.
  - apply (Activity.lstep_event "aa" (Activity.mkLoop (Activity.mkProc false true) true true 0 false [])
             (status_msg "aa" "active")
             (Activity.mkProc true true) []); reflexivity.
  - apply (Activity.lstep_event "aa" (Activity.mkLoop (Activity.mkProc true true) true true 0 false [])
             epoch_msg
             (Activity.mkProc true true) [Activity.ActivityMsg "aa"]); reflexivity.
Qed.

(** C5 (code_bug). Two exit-family statuses for this key handled in a row
    ([exited] then [withdrawn], the second taken by the [select] before
    [<-p.stop]) close [p.stop] twice: the second [close] panics. *)
Theorem second_exit_status_panics :
  let k := "aa" in
  let l1 := Activity.mkLoop (Activity.mkProc false true) true true 0 false [] in
  let l2 := Activity.mkLoop (Activity.mkProc false true) true true 0 true [] in
  Activity.handle k (Activity.proc l1) (status_msg k "withdrawn") = None
  /\ rtc (Activity.lstep k) Activity.init_loop l2 /\ Activity.crashed l2 = true.
Proof.
  cbv zeta. repeat split.
  eapply rtc_l.
  { apply (Activity.lstep_event "aa" Activity.init_loop (status_msg "aa" "exited")
             (Activity.mkProc false true) []); reflexivity. }
  eapply rtc_l.
  { apply (Activity.lstep_panic "aa" _ (status_msg "aa" "withdrawn")); reflexivity. }
  apply rtc_refl.
Qed.

(* ------------------------------------------------------------------ *)
(** ** Claims: scan and transaction pipeline *)

(** C7 (code_bug). Whatever the collaborators return, a scan writes no
    error line and returns [nil]: the error a failed [scrubVacantMinipool]
    returns is discarded, not logged. The scan is not aborted: every
    decision of [scrub_decisions] still reaches [scrubVacantMinipool]. *)
Theorem scrub_errors_dropped_scan_continues (env : TxEnv) (s : NetworkState.t) :
  let '(logs, _, ret) := checkSoloMigrations env s in
  errors_logged logs = [] /\ ret = None
  /\ minipools_logged logs = map fst (scrub_decisions s)
  /\ reasons_logged logs = map snd (scrub_decisions s).
Proof.
  pose proof (checkSoloMigrations_outcome env s) as H.
  destruct (checkSoloMigrations env s) as [[logs txs] ret].
  unfold scan_outcome in H. injection H as H1 H2 H3 H4. auto.
Qed.

(** C8. When the max-fee gate vetoes, [scrubVacantMinipool] returns [nil]
    and sends no transaction; when gas estimation fails it returns an error
    and sends no transaction. *)
Theorem scrub_veto_and_estimate_failure (env : TxEnv) (address : Z) (reason : ScrubReason) :
  (forall g : GasInfo,
     NewMinipool env address = None -> GetNodeAccountTransactor env = None ->
     EstimateVoteScrubGas env address = Ok g ->
     PrintAndCheckGasInfo env g (GweiToWei (WatchtowerMaxFee env)) = false ->
     (scrubVacantMinipool env address reason).2 = None
     /\ (scrubVacantMinipool env address reason).1.2 = [])
  /\ (forall e : error,
     EstimateVoteScrubGas env address = Err e ->
     (scrubVacantMinipool env address reason).2 <> None
     /\ (scrubVacantMinipool env address reason).1.2 = []).
Proof.
  split.
  - intros g H1 H2 H3 H4. unfold scrubVacantMinipool. rewrite H1, H2, H3, H4.
    split; reflexivity.
  - intros e He. unfold scrubVacantMinipool.
    destruct (NewMinipool env address); [split; [discriminate | reflexivity]|].
    destruct (GetNodeAccountTransactor env); [split; [discriminate | reflexivity]|].
    rewrite He. split; [discriminate | reflexivity].
Qed.

Lemma scrub_veto_and_estimate_failure_witness :
  ((scrubVacantMinipool env_gas_veto 2 NotOnBeacon).2 = None
   /\ (scrubVacantMinipool env_gas_veto 2 NotOnBeacon).1.2 = [])
  /\ ((scrubVacantMinipool env_estimate_fails 1 NotOnBeacon).2 <> None
      /\ (scrubVacantMinipool env_estimate_fails 1 NotOnBeacon).1.2 = []).
Proof.
  split.
  - apply (proj1 (scrub_veto_and_estimate_failure env_gas_veto 2 NotOnBeacon) sample_gas);
      reflexivity.
  - apply (proj2 (scrub_veto_and_estimate_failure env_estimate_fails 1 NotOnBeacon)
             (Error "execution reverted")); reflexivity.
Defined.

(** C9. Scrub decisions are a function of the snapshot: the collaborators'
    answers do not change them, and time enters only as the snapshot's
    block time [time.Unix(genesis, 0).Add(Duration(slot * secondsPerSlot) * time.Second)]
    (a Go instant, with its wrap-arounds); two snapshots that agree on the
    records, the scrub period and that block time give the same decisions
    and the same logged decisions. *)
Theorem classification_snapshot_only (env1 env2 : TxEnv) (s1 s2 : NetworkState.t)
  (Hm : NetworkState.MinipoolDetails s1 = NetworkState.MinipoolDetails s2)
  (Hv : NetworkState.ValidatorDetails s1 = NetworkState.ValidatorDetails s2)
  (HP : NetworkState.PromotionScrubPeriod s1 = NetworkState.PromotionScrubPeriod s2)
  (Hbt : blockTime s1 = blockTime s2) :
  scrub_decisions s1 = scrub_decisions s2
  /\ scan_outcome (checkSoloMigrations env1 s1) = scan_outcome (checkSoloMigrations env2 s2).
Proof.
  assert (Hd : scrub_decisions s1 = scrub_decisions s2).
  { unfold scrub_decisions. rewrite Hm. apply flat_map_ext. intros mpd.
    rewrite (classify_snapshot_ext s1 s2 mpd Hv HP Hbt). reflexivity. }
  split; [exact Hd|].
  rewrite !checkSoloMigrations_outcome, Hd. reflexivity.
Qed.

Lemma classification_snapshot_only_witness :
  let s2 := NetworkState.mk 0 42 19000 12 10000 (NetworkState.MinipoolDetails two_minipools)
              (NetworkState.ValidatorDetails two_minipools) in
  blockTime two_minipools = blockTime s2
  /\ scrub_decisions two_minipools = scrub_decisions s2
  /\ scan_outcome (checkSoloMigrations env_all_ok two_minipools)
     = scan_outcome (checkSoloMigrations env_estimate_fails s2).
Proof.
  cbv zeta. split; [vm_compute; reflexivity|].
  apply (classification_snapshot_only env_all_ok env_estimate_fails two_minipools); reflexivity.
Defined.

(* ------------------------------------------------------------------ *)
(** ** Further properties: the scan *)

Lemma classify_nonempty_eligible (s : NetworkState.t) (mpd : MinipoolDetails.t) :
  classify s mpd <> [] ->
  MinipoolDetails.Status mpd <> Dissolved /\ MinipoolDetails.IsVacant mpd = true.
Proof.
  unfold classify. destruct (decide _) as [Hd|Hd]; [congruence|].
  destruct (MinipoolDetails.IsVacant mpd); cbn [negb]; [auto|congruence].
Qed.

Lemma checkBalance_length (mpd : MinipoolDetails.t) (v : ValidatorStatus.t) :
  (length (checkBalance mpd v) <= 1)%nat.
Proof. unfold checkBalance. repeat case_match; cbn; lia. Qed.

Lemma checkCredentials_length (s : NetworkState.t) (mpd : MinipoolDetails.t)
  (v : ValidatorStatus.t) :
  (length (checkCredentials s mpd v) <= 1)%nat.
Proof.
  unfold checkCredentials. repeat case_match; cbn; try lia. apply checkBalance_length.
Qed.

(** X1: every scrub decision of a scan is for a minipool of the snapshot
    that is vacant and not dissolved, with a reason its classification gives. *)
Theorem scrub_decision_vacant (s : NetworkState.t) (a : Z) (r : ScrubReason)
  (Hin : In (a, r) (scrub_decisions s)) :
  exists mpd, In mpd (NetworkState.MinipoolDetails s)
    /\ MinipoolDetails.MinipoolAddress mpd = a
    /\ MinipoolDetails.IsVacant mpd = true
    /\ MinipoolDetails.Status mpd <> Dissolved
    /\ In r (classify s mpd).
Proof.
  unfold scrub_decisions in Hin. apply in_flat_map in Hin as (mpd & Hm & Hr).
  apply in_map_iff in Hr as (r' & Heq & Hr'). injection Heq as Ha Hrr. subst r'.
  destruct (classify_nonempty_eligible s mpd) as [Hd Hv];
    [intros He; rewrite He in Hr'; destruct Hr'|].
  exists mpd. repeat split; assumption.
Qed.

Lemma scrub_decision_vacant_witness :
  In (2, TimedOut (GoTime.Unix 10000) (GoTime.Unix 19000) (8500 * GoTime.Second)) (scrub_decisions two_minipools) /\
  exists mpd, In mpd (NetworkState.MinipoolDetails two_minipools)
    /\ MinipoolDetails.MinipoolAddress mpd = 2
    /\ MinipoolDetails.IsVacant mpd = true
    /\ MinipoolDetails.Status mpd <> Dissolved
    /\ In (TimedOut (GoTime.Unix 10000) (GoTime.Unix 19000) (8500 * GoTime.Second)) (classify two_minipools mpd).
Proof.
  assert (H : In (2, TimedOut (GoTime.Unix 10000) (GoTime.Unix 19000) (8500 * GoTime.Second)) (scrub_decisions two_minipools))
    by (vm_compute; right; right; left; reflexivity).
  exact (conj H (scrub_decision_vacant _ _ _ H)).
Defined.

(** X2: one minipool gets at most two [scrubVacantMinipool] calls per
    scan, and at most one when its validator record exists. *)
Theorem classify_at_most_two (s : NetworkState.t) (mpd : MinipoolDetails.t) :
  (length (classify s mpd) <= 2)%nat
  /\ (ValidatorStatus.Exists (lookup_validator s (MinipoolDetails.Pubkey mpd)) = true ->
      (length (classify s mpd) <= 1)%nat).
Proof.
  unfold classify. destruct (decide _); [cbn; lia|].
  destruct (MinipoolDetails.IsVacant mpd); cbn [negb]; [|cbn; lia].
  set (v := lookup_validator s _). pose proof (checkCredentials_length s mpd v).
  destruct (ValidatorStatus.Exists v), (bool_decide _); cbn;
    split; intros; try lia; discriminate.
Qed.

(** X3: a vacant, non-dissolved minipool whose validator record exists
    but is not [active_ongoing] gets exactly one scrub, naming that state. *)
Theorem classify_existing_not_active (s : NetworkState.t) (mpd : MinipoolDetails.t)
  (Hnd : MinipoolDetails.Status mpd <> Dissolved)
  (Hvac : MinipoolDetails.IsVacant mpd = true)
  (Hex : ValidatorStatus.Exists (lookup_validator s (MinipoolDetails.Pubkey mpd)) = true)
  (Hst : ValidatorStatus.Status (lookup_validator s (MinipoolDetails.Pubkey mpd))
         <> ValidatorState_ActiveOngoing) :
  classify s mpd
  = [WrongState (ValidatorStatus.Status (lookup_validator s (MinipoolDetails.Pubkey mpd)))].
Proof.
  unfold classify. destruct (decide _); [contradiction|]. rewrite Hvac, Hex. cbn [negb app].
  rewrite bool_decide_false by exact Hst. reflexivity.
Qed.

(** A validator seen on Beacon but still queued. *)
Definition pending_snapshot : NetworkState.t :=
  snapshot 0 0 10000 [] {[ 7 := ValidatorStatus.mk true "pending_queued" 32000000000 (creds 1 170) ]}.

Lemma classify_existing_not_active_witness :
  classify pending_snapshot (vacant_mp 1 7 0 0 (creds 1 170) 0) = [WrongState "pending_queued"].
Proof.
  refine (classify_existing_not_active pending_snapshot (vacant_mp 1 7 0 0 (creds 1 170) 0)
            _ _ _ _).
  - discriminate.
  - reflexivity.
  - vm_compute. reflexivity.
  - vm_compute. discriminate.
Defined.

(** X4: for an eligible minipool with an [active_ongoing] validator and
    0x00 credentials, when the snapshot's block time and the minipool's
    status time plus its scrub period lie in [[0, 2^33)] seconds (so that
    no [int64] nanosecond count overflows), the block time is
    [time.Unix(genesis + slot * secondsPerSlot, 0)], and the minipool is
    scrubbed exactly when that block time is past its status time plus 85%
    of the scrub period (strictly, compared in hundredths of a second). *)
Theorem bls_scrub_deadline (s : NetworkState.t) (mpd : MinipoolDetails.t) (v : ValidatorStatus.t)
  (Hnd : MinipoolDetails.Status mpd <> Dissolved)
  (Hvac : MinipoolDetails.IsVacant mpd = true)
  (Hlook : lookup_validator s (MinipoolDetails.Pubkey mpd) = v)
  (Hex : ValidatorStatus.Exists v = true)
  (Hst : ValidatorStatus.Status v = ValidatorState_ActiveOngoing)
  (Hb : hash_byte0 (ValidatorStatus.WithdrawalCredentials v) = blsPrefix)
  (HG : 0 <= NetworkState.GenesisTime s)
  (Hslot : 0 <= NetworkState.BeaconSlotNumber s)
  (Hsps : 0 <= NetworkState.SecondsPerSlot s)
  (HB : NetworkState.GenesisTime s
        + NetworkState.BeaconSlotNumber s * NetworkState.SecondsPerSlot s < 2 ^ 33)
  (HT : 0 <= MinipoolDetails.StatusTime mpd)
  (HP : 0 <= NetworkState.PromotionScrubPeriod s)
  (HTP : MinipoolDetails.StatusTime mpd + NetworkState.PromotionScrubPeriod s < 2 ^ 33) :
  blockTime s = GoTime.Unix (NetworkState.GenesisTime s
                             + NetworkState.BeaconSlotNumber s * NetworkState.SecondsPerSlot s)
  /\ (classify s mpd <> [] <->
      100 * (NetworkState.GenesisTime s
             + NetworkState.BeaconSlotNumber s * NetworkState.SecondsPerSlot s)
      > 100 * MinipoolDetails.StatusTime mpd + 85 * NetworkState.PromotionScrubPeriod s).
Proof.
  set (G := NetworkState.GenesisTime s) in *.
  set (P := NetworkState.PromotionScrubPeriod s) in *.
  set (T := MinipoolDetails.StatusTime mpd) in *.
  set (U := NetworkState.BeaconSlotNumber s * NetworkState.SecondsPerSlot s) in *.
  assert (HU : 0 <= U) by (unfold U; apply Z.mul_nonneg_nonneg; assumption).
  pose proof (Z.div_mod (P * 85) 100 ltac:(lia)) as Hdm.
  pose proof (Z.mod_pos_bound (P * 85) 100 ltac:(lia)) as Hmb.
  set (Q := P * 85 / 100) in *.
  assert (Hbt : blockTime s = GoTime.Unix (G + U)).
  { unfold blockTime, genesisTime, secondsForSlot. fold G U.
    rewrite (wrap_u64_small U) by lia. rewrite (to_int64_small U) by lia.
    rewrite (to_int64_small (U * GoTime.Second)) by (unfold GoTime.Second; lia).
    rewrite (to_int64_small G) by lia.
    unfold GoTime.Unix. rewrite !to_int64_small by (rewrite GoTimeFacts.unixToInternal_value; lia).
    rewrite GoTimeFacts.Add_whole, GoTimeFacts.addSec_small
      by (rewrite GoTimeFacts.unixToInternal_value; lia).
    f_equal. ring. }
  split; [exact Hbt|].
  rewrite (classify_bls s mpd v Hnd Hvac Hlook Hex Hst Hb). cbv zeta.
  assert (Hth : scrubThreshold s = Q * GoTime.Second).
  { unfold scrubThreshold. fold P. rewrite Z.quot_div_nonneg by lia. fold Q.
    apply to_int64_small. unfold GoTime.Second. lia. }
  rewrite Hth, Hbt. fold T. rewrite (big_int64_small T) by lia.
  unfold GoTime.Unix.
  rewrite !to_int64_small by (rewrite GoTimeFacts.unixToInternal_value; lia).
  rewrite GoTimeFacts.Add_whole, GoTimeFacts.addSec_small
    by (rewrite GoTimeFacts.unixToInternal_value; lia).
  rewrite GoTimeFacts.Sub_whole by (rewrite GoTimeFacts.unixToInternal_value; unfold GoTime.Second; lia).
  unfold GoTime.Second.
  destruct (Z.ltb_spec ((T + GoTime.unixToInternal + Q - (G + U + GoTime.unixToInternal)) * 10 ^ 9) 0);
    split; intros; try congruence; lia.
Qed.

Definition m1_state : NetworkState.t :=
  snapshot 10000 750 10000 [] {[ 7 := active_validator 32000000000 (creds 0 5) ]}.

Lemma bls_scrub_deadline_witness :
  blockTime m1_state = GoTime.Unix (10000 + 750 * 12)
  /\ (classify m1_state (vacant_mp 1 7 0 0 (creds 1 5) 10000) <> [] <->
      100 * (10000 + 750 * 12) > 100 * 10000 + 85 * 10000).
Proof.
  refine (bls_scrub_deadline m1_state (vacant_mp 1 7 0 0 (creds 1 5) 10000)
            (active_validator 32000000000 (creds 0 5)) _ _ _ _ _ _ _ _ _ _ _ _ _).
  - discriminate.
  - reflexivity.
  - vm_compute. reflexivity.
  - reflexivity.
  - reflexivity.
  - vm_compute. reflexivity.
  - vm_compute. discriminate.
  - vm_compute. discriminate.
  - vm_compute. discriminate.
  - vm_compute. reflexivity.
  - vm_compute. discriminate.
  - vm_compute. discriminate.
  - vm_compute. reflexivity.
Defined.

(** X5: with 0x01 credentials, and when neither [uint64] operation wraps,
    an eligible minipool with an [active_ongoing] validator is scrubbed exactly
    when the credentials differ, the combined balance is below 32 ETH, or it
    is below the creation balance minus the 0.001 ETH buffer. *)
Theorem el_scrub_policy_nowrap (s : NetworkState.t) (mpd : MinipoolDetails.t)
  (v : ValidatorStatus.t)
  (Hnd : MinipoolDetails.Status mpd <> Dissolved)
  (Hvac : MinipoolDetails.IsVacant mpd = true)
  (Hlook : lookup_validator s (MinipoolDetails.Pubkey mpd) = v)
  (Hex : ValidatorStatus.Exists v = true)
  (Hst : ValidatorStatus.Status v = ValidatorState_ActiveOngoing)
  (Hb : hash_byte0 (ValidatorStatus.WithdrawalCredentials v) = elPrefix)
  (Hcb : buffer <= creationBalanceGwei mpd)
  (Hvb : 0 <= ValidatorStatus.Balance v)
  (Hsum : ValidatorStatus.Balance v
          + big_uint64 (big_div (MinipoolDetails.Balance mpd) (GweiToWei 1)) < 2 ^ 64) :
  classify s mpd <> [] <->
  ValidatorStatus.WithdrawalCredentials v <> MinipoolDetails.WithdrawalCredentials mpd
  \/ ValidatorStatus.Balance v
     + big_uint64 (big_div (MinipoolDetails.Balance mpd) (GweiToWei 1)) < threshold
  \/ ValidatorStatus.Balance v
     + big_uint64 (big_div (MinipoolDetails.Balance mpd) (GweiToWei 1))
     < creationBalanceGwei mpd - buffer.
Proof. apply classify_el_nowrap; assumption. Qed.

Definition m3_state : NetworkState.t :=
  snapshot 0 0 10000 [] {[ 7 := active_validator 31999000000 (creds 1 170) ]}.

Lemma el_scrub_policy_nowrap_witness :
  classify m3_state (vacant_mp 1 7 (32 * 10 ^ 18) 0 (creds 1 170) 0) <> [] <->
  creds 1 170 <> creds 1 170
  \/ 31999000000 + big_uint64 (big_div 0 (GweiToWei 1)) < threshold
  \/ 31999000000 + big_uint64 (big_div 0 (GweiToWei 1))
     < creationBalanceGwei (vacant_mp 1 7 (32 * 10 ^ 18) 0 (creds 1 170) 0) - buffer.
Proof.
  refine (el_scrub_policy_nowrap m3_state (vacant_mp 1 7 (32 * 10 ^ 18) 0 (creds 1 170) 0)
            (active_validator 31999000000 (creds 1 170)) _ _ _ _ _ _ _ _ _).
  - discriminate.
  - reflexivity.
  - vm_compute. reflexivity.
  - reflexivity.
  - reflexivity.
  - vm_compute. reflexivity.
  - vm_compute. discriminate.
  - vm_compute. discriminate.
  - vm_compute. reflexivity.
Defined.

(** X6: an eligible minipool with an [active_ongoing] validator whose
    credentials start with any byte other than 0x00 and 0x01 is scrubbed
    once, for the unexpected prefix. *)
Theorem other_prefix_scrubbed (s : NetworkState.t) (mpd : MinipoolDetails.t)
  (v : ValidatorStatus.t)
  (Hnd : MinipoolDetails.Status mpd <> Dissolved)
  (Hvac : MinipoolDetails.IsVacant mpd = true)
  (Hlook : lookup_validator s (MinipoolDetails.Pubkey mpd) = v)
  (Hex : ValidatorStatus.Exists v = true)
  (Hst : ValidatorStatus.Status v = ValidatorState_ActiveOngoing)
  (Hb0 : hash_byte0 (ValidatorStatus.WithdrawalCredentials v) <> blsPrefix)
  (Hb1 : hash_byte0 (ValidatorStatus.WithdrawalCredentials v) <> elPrefix) :
  classify s mpd = [UnexpectedPrefix (ValidatorStatus.WithdrawalCredentials v)].
Proof. apply (classify_other_prefix s mpd v); assumption. Qed.

Definition prefix2_state : NetworkState.t :=
  snapshot 0 0 10000 [] {[ 7 := active_validator 32000000000 (creds 2 170) ]}.

Lemma other_prefix_scrubbed_witness :
  classify prefix2_state (vacant_mp 1 7 0 0 (creds 1 170) 0)
  = [UnexpectedPrefix (creds 2 170)].
Proof.
  refine (other_prefix_scrubbed prefix2_state (vacant_mp 1 7 0 0 (creds 1 170) 0)
            (active_validator 32000000000 (creds 2 170)) _ _ _ _ _ _ _).
  - discriminate.
  - reflexivity.
  - vm_compute. reflexivity.
  - reflexivity.
  - reflexivity.
  - vm_compute. discriminate.
  - vm_compute. discriminate.
Defined.

(* ------------------------------------------------------------------ *)
(** ** Further properties: scrub submissions *)

(** X7: [scrubVacantMinipool] sends at most one [VoteScrub] transaction. It
    sends one exactly when the binding, the transactor and the gas
    estimate succeed and the max-fee check approves. The transaction is for
    the given minipool, with the watchtower max and priority fees converted to
    wei and the estimate's safe gas limit. *)
Theorem scrubVacantMinipool_submission (env : TxEnv) (address : Z) (reason : ScrubReason) :
  let '(_, txs, _) := scrubVacantMinipool env address reason in
  (length txs <= 1)%nat
  /\ (txs <> [] <->
      NewMinipool env address = None /\ GetNodeAccountTransactor env = None
      /\ exists g, EstimateVoteScrubGas env address = Ok g
         /\ PrintAndCheckGasInfo env g (GweiToWei (WatchtowerMaxFee env)) = true)
  /\ (forall a o, In (a, o) txs ->
      a = address /\ GasFeeCap o = GweiToWei (WatchtowerMaxFee env)
      /\ GasTipCap o = GweiToWei (WatchtowerPrioFee env)
      /\ exists g, EstimateVoteScrubGas env address = Ok g /\ GasLimit o = SafeGasLimit g).
Proof.
  unfold scrubVacantMinipool.
  destruct (NewMinipool env address) eqn:E1;
    [cbn; split; [lia | split; [split; [congruence | intros (H & _); discriminate]
                               | intros ? ? []]]|].
  destruct (GetNodeAccountTransactor env) eqn:E2;
    [cbn; split; [lia | split; [split; [congruence | intros (_ & H & _); discriminate]
                               | intros ? ? []]]|].
  destruct (EstimateVoteScrubGas env address) as [g|e] eqn:E3;
    [|cbn; split; [lia | split; [split; [congruence | intros (_ & _ & g & H & _); discriminate]
                                | intros ? ? []]]].
  destruct (PrintAndCheckGasInfo env g _) eqn:E4; cbn [negb].
  - assert (Hsend : forall (logs : list LogLine) (ret : option error),
      let '(_, txs, _) := (logs, [(address, {| GasFeeCap := GweiToWei (WatchtowerMaxFee env);
                                               GasTipCap := GweiToWei (WatchtowerPrioFee env);
                                               GasLimit := SafeGasLimit g |})], ret) in
      (length txs <= 1)%nat
      /\ (txs <> [] <->
          None = @None error /\ @None error = None
          /\ exists g', Ok g = Ok g'
             /\ PrintAndCheckGasInfo env g' (GweiToWei (WatchtowerMaxFee env)) = true)
      /\ (forall a o, In (a, o) txs ->
          a = address /\ GasFeeCap o = GweiToWei (WatchtowerMaxFee env)
          /\ GasTipCap o = GweiToWei (WatchtowerPrioFee env)
          /\ exists g', Ok g = Ok g' /\ GasLimit o = SafeGasLimit g')).
    { intros logs ret. cbn. split; [lia|]. split.
      - split; [intros _; split; [reflexivity|]; split; [reflexivity|]; exists g; auto
               | intros _; discriminate].
      - intros a o [Hao|[]]. injection Hao as <- <-. cbn.
        repeat split; try reflexivity. exists g. auto. }
    destruct (VoteScrub env address _) as [h|e];
      [destruct (PrintAndWaitForTransaction env h)|]; exact (Hsend [] None).
  - cbn. split; [lia|]. split; [|intros ? ? []].
    split; [congruence|]. intros (_ & _ & g' & Hg & Hc). injection Hg as <-. congruence.
Qed.

(** X8: [scrubVacantMinipool] returns [nil] exactly when the binding, the
    transactor and the gas estimate succeed and then either the max-fee check
    declines or the [VoteScrub] transaction is sent and mined without error. *)
Theorem scrubVacantMinipool_nil (env : TxEnv) (address : Z) (reason : ScrubReason) :
  (scrubVacantMinipool env address reason).2 = None <->
  NewMinipool env address = None /\ GetNodeAccountTransactor env = None
  /\ exists g, EstimateVoteScrubGas env address = Ok g
     /\ (PrintAndCheckGasInfo env g (GweiToWei (WatchtowerMaxFee env)) = false
         \/ exists hash,
              VoteScrub env address {| GasFeeCap := GweiToWei (WatchtowerMaxFee env);
                                       GasTipCap := GweiToWei (WatchtowerPrioFee env);
                                       GasLimit := SafeGasLimit g |} = Ok hash
              /\ PrintAndWaitForTransaction env hash = None).
Proof.
  unfold scrubVacantMinipool.
  destruct (NewMinipool env address) eqn:E1;
    [cbn; split; [discriminate | intros (H & _); discriminate]|].
  destruct (GetNodeAccountTransactor env) eqn:E2;
    [cbn; split; [discriminate | intros (_ & H & _); discriminate]|].
  destruct (EstimateVoteScrubGas env address) as [g|e] eqn:E3;
    [|cbn; split; [discriminate | intros (_ & _ & g & H & _); discriminate]].
  destruct (PrintAndCheckGasInfo env g _) eqn:E4; cbn [negb].
  - destruct (VoteScrub env address _) as [h|e] eqn:E5.
    + destruct (PrintAndWaitForTransaction env h) eqn:E6; cbn; split.
      * discriminate.
      * intros (_ & _ & g' & Hg & [Hc | (h' & Hv & Hw)]); injection Hg as <-; [congruence|].
        rewrite E5 in Hv. injection Hv as <-. congruence.
      * intros _. split; [reflexivity|]. split; [reflexivity|]. exists g.
        split; [reflexivity|]. right. exists h. auto.
      * reflexivity.
    + cbn. split; [discriminate|].
      intros (_ & _ & g' & Hg & [Hc | (h' & Hv & Hw)]); injection Hg as <-; congruence.
  - cbn. split; [intros _ | reflexivity].
    split; [reflexivity|]. split; [reflexivity|]. exists g. auto.
Qed.

Lemma scrubVacantMinipool_txs (env : TxEnv) (address : Z) (reason : ScrubReason) :
  (scrubVacantMinipool env address reason).1.2 = []
  \/ exists o, (scrubVacantMinipool env address reason).1.2 = [(address, o)].
Proof.
  unfold scrubVacantMinipool.
  destruct (NewMinipool env address); [left; reflexivity|].
  destruct (GetNodeAccountTransactor env); [left; reflexivity|].
  destruct (EstimateVoteScrubGas env address) as [g|]; [|left; reflexivity].
  destruct (PrintAndCheckGasInfo env g _); cbn [negb]; [|left; reflexivity].
  right. destruct (VoteScrub env address _) as [h|];
    [destruct (PrintAndWaitForTransaction env h)|]; eexists; reflexivity.
Qed.

Lemma scrub_each_txs (env : TxEnv) (address : Z) (rs : list ScrubReason) :
  map fst (scrub_each env address rs).2 `sublist_of` map (fun _ => address) rs.
Proof.
  induction rs as [|r rs IH]; [constructor|]. cbn [scrub_each].
  pose proof (scrubVacantMinipool_txs env address r) as Hs.
  destruct (scrubVacantMinipool env address r) as [[l1 t1] e1].
  destruct (scrub_each env address rs) as [l2 t2]. cbn in Hs, IH |- *.
  destruct Hs as [-> | (o & ->)]; cbn.
  - by apply sublist_cons.
  - by apply sublist_skip.
Qed.

Lemma scan_minipools_txs (env : TxEnv) (s : NetworkState.t) (mpds : list MinipoolDetails.t) :
  map fst (scan_minipools env s mpds).2
  `sublist_of` map fst (flat_map (fun mpd =>
                          map (fun r => (MinipoolDetails.MinipoolAddress mpd, r)) (classify s mpd))
                          mpds).
Proof.
  induction mpds as [|mpd mpds IH]; [constructor|]. cbn [scan_minipools flat_map].
  pose proof (scrub_each_txs env (MinipoolDetails.MinipoolAddress mpd) (classify s mpd)) as Hs.
  destruct (scrub_each env _ (classify s mpd)) as [l1 t1].
  destruct (scan_minipools env s mpds) as [l2 t2]. cbn in Hs, IH |- *.
  rewrite !map_app, map_map. by apply sublist_app.
Qed.

(** X9: a scan sends at most one [VoteScrub] transaction per scrub decision:
    the minipools of its transactions, in order, are a sublist of the
    minipools of its decisions. *)
Theorem checkSoloMigrations_txs_per_decision (env : TxEnv) (s : NetworkState.t) :
  let '(_, txs, _) := checkSoloMigrations env s in
  map fst txs `sublist_of` map fst (scrub_decisions s)
  /\ (length txs <= length (scrub_decisions s))%nat.
Proof.
  unfold checkSoloMigrations, scrub_decisions.
  pose proof (scan_minipools_txs env s (NetworkState.MinipoolDetails s)) as H.
  destruct (scan_minipools env s _) as [logs txs]. cbn in H |- *.
  split; [exact H|]. apply sublist_length in H. rewrite !length_map in H. exact H.
Qed.

Lemma scrub_each_all_sent (env : TxEnv) (address : Z) (rs : list ScrubReason)
  (Hmp : NewMinipool env address = None)
  (Htr : GetNodeAccountTransactor env = None)
  (Hgas : exists g, EstimateVoteScrubGas env address = Ok g
          /\ PrintAndCheckGasInfo env g (GweiToWei (WatchtowerMaxFee env)) = true) :
  map fst (scrub_each env address rs).2 = map (fun _ => address) rs.
Proof.
  destruct Hgas as (g & Hg & Hc).
  induction rs as [|r rs IH]; [reflexivity|]. cbn [scrub_each].
  assert (Hs : exists o, (scrubVacantMinipool env address r).1.2 = [(address, o)]).
  { unfold scrubVacantMinipool. rewrite Hmp, Htr, Hg, Hc. cbn [negb].
    destruct (VoteScrub env address _) as [h|];
      [destruct (PrintAndWaitForTransaction env h)|]; eexists; reflexivity. }
  destruct (scrubVacantMinipool env address r) as [[l1 t1] e1].
  destruct (scrub_each env address rs) as [l2 t2]. cbn in Hs, IH |- *.
  destruct Hs as (o & ->). cbn. rewrite IH. reflexivity.
Qed.

(** X10: when the binding, the transactor, the gas estimate and the max-fee
    check succeed for every minipool, a scan sends exactly one [VoteScrub]
    transaction per scrub decision, in decision order, whatever the
    transactions' own outcome. *)
Theorem checkSoloMigrations_all_submitted (env : TxEnv) (s : NetworkState.t)
  (Hmp : forall a, NewMinipool env a = None)
  (Htr : GetNodeAccountTransactor env = None)
  (Hgas : forall a, exists g, EstimateVoteScrubGas env a = Ok g
          /\ PrintAndCheckGasInfo env g (GweiToWei (WatchtowerMaxFee env)) = true) :
  map fst (checkSoloMigrations env s).1.2 = map fst (scrub_decisions s).
Proof.
  unfold checkSoloMigrations, scrub_decisions.
  assert (Hscan : forall mpds, map fst (scan_minipools env s mpds).2
    = map fst (flat_map (fun mpd =>
        map (fun r => (MinipoolDetails.MinipoolAddress mpd, r)) (classify s mpd)) mpds)).
  { induction mpds as [|mpd mpds IH]; [reflexivity|]. cbn [scan_minipools flat_map].
    pose proof (scrub_each_all_sent env (MinipoolDetails.MinipoolAddress mpd) (classify s mpd)
                  (Hmp _) Htr (Hgas _)) as Hs.
    destruct (scrub_each env _ (classify s mpd)) as [l1 t1].
    destruct (scan_minipools env s mpds) as [l2 t2]. cbn in Hs, IH |- *.
    rewrite !map_app, map_map. f_equal; [exact Hs | exact IH]. }
  specialize (Hscan (NetworkState.MinipoolDetails s)).
  destruct (scan_minipools env s _) as [logs txs]. exact Hscan.
Qed.

Lemma checkSoloMigrations_all_submitted_witness :
  map fst (checkSoloMigrations env_all_ok two_minipools).1.2 = [1; 1; 2].
Proof.
  refine (eq_trans (checkSoloMigrations_all_submitted env_all_ok two_minipools _ _ _) _).
  - intros a. reflexivity.
  - reflexivity.
  - intros a. exists sample_gas. split; reflexivity.
  - vm_compute. reflexivity.
Defined.

(* ------------------------------------------------------------------ *)
(** ** Further properties: the single-flight flag *)

Lemma running_flag_step (w w' : SingleFlight.World) :
  SingleFlight.step w w' ->
  (SingleFlight.isRunning w = true -> SingleFlight.ScanRunning ∈ SingleFlight.scans w) ->
  SingleFlight.isRunning w' = true -> SingleFlight.ScanRunning ∈ SingleFlight.scans w'.
Proof.
  intros Hs Hinv. destruct Hs as [w atlas|w i|w i|w i|w i|w j Hj|w j Hj]; cbn; try exact Hinv.
  - intros Hr. apply elem_of_app. left. exact (Hinv Hr).
  - intros _. apply list_elem_of_lookup. exists j.
    rewrite list_lookup_insert. apply lookup_lt_Some in Hj.
    rewrite decide_True by lia. reflexivity.
  - discriminate.
Qed.

(** X11: in every reachable state, when [t.isRunning] is set some scan is
    executing [checkSoloMigrations]. Both ways a scan ends, the [handleError]
    path and the normal one, clear the flag, so once no scan is running the
    flag is clear and the next [run] call for a deployed network starts one. *)
Theorem running_flag_has_scan (w : SingleFlight.World)
  (Hreach : rtc SingleFlight.step SingleFlight.init w)
  (Hflag : SingleFlight.isRunning w = true) :
  SingleFlight.ScanRunning ∈ SingleFlight.scans w.
Proof.
  revert w Hreach Hflag.
  apply (rtc_ind_r (fun w => SingleFlight.isRunning w = true ->
                             SingleFlight.ScanRunning ∈ SingleFlight.scans w)).
  - discriminate.
  - intros w1 w2 _ Hs IH. exact (running_flag_step w1 w2 Hs IH).
Qed.

Lemma running_flag_has_scan_witness :
  let w := SingleFlight.mkWorld true [SingleFlight.RunReturned] [SingleFlight.ScanRunning] in
  (rtc SingleFlight.step SingleFlight.init w /\ SingleFlight.isRunning w = true)
  /\ SingleFlight.ScanRunning ∈ SingleFlight.scans w.
Proof.
  cbv zeta.
  assert (Hr : rtc SingleFlight.step SingleFlight.init
    (SingleFlight.mkWorld true [SingleFlight.RunReturned] [SingleFlight.ScanRunning])).
  { eapply rtc_l; [apply (SingleFlight.step_invoke SingleFlight.init true)|]. cbn.
    eapply rtc_l; [apply (SingleFlight.step_check_passed _ 0); reflexivity|].
    eapply rtc_l; [apply (SingleFlight.step_go _ 0); reflexivity|]. cbn.
    eapply rtc_l; [apply (SingleFlight.step_mark_running _ 0); reflexivity|].
    apply rtc_refl. }
  exact (conj (conj Hr eq_refl) (running_flag_has_scan _ Hr eq_refl)).
Defined.

(* ------------------------------------------------------------------ *)
(** ** Further properties: the validator activity process *)

Module ActivityMore.
Import Activity.

(** Handling one event: when it panics, and what it does to [p.stop]. *)
Lemma handle_stop (key : string) (p : Proc) (ev : Event) :
  (handle key p ev = None <-> exit_applied key ev = true /\ stopClosed p = true)
  /\ (forall p' outs, handle key p ev = Some (p', outs) ->
      stopClosed p' = stopClosed p || exit_applied key ev).
Proof.
  unfold exit_applied. destruct p as [va sc].
  destruct ev as [|[m|]]; cbn [handle onBeaconClientConnected onBeaconClientMessage applied_status].
  2: destruct (String.eqb (Message m) "validator_status") eqn:E; cbn [andb].
  2: destruct (String.eqb key (Pubkey m)) eqn:E0; cbn [andb negb].
  2: destruct (String.eqb (StatusCode m) "inactive") eqn:E1; cbn [orb].
  2: { assert (Hx : is_exit_code (StatusCode m) = false)
         by (apply String.eqb_eq in E1; rewrite E1; reflexivity).
       rewrite Hx. cbn. split; [split; [discriminate | intros [H _]; discriminate]|].
       intros p' outs H. injection H as <- <-. cbn. destruct sc; reflexivity. }
  2: destruct (String.eqb (StatusCode m) "active") eqn:E2; cbn [orb].
  2: { assert (Hx : is_exit_code (StatusCode m) = false)
         by (apply String.eqb_eq in E2; rewrite E2; reflexivity).
       rewrite Hx. cbn. split; [split; [discriminate | intros [H _]; discriminate]|].
       intros p' outs H. injection H as <- <-. cbn. destruct sc; reflexivity. }
  2: destruct (is_exit_code (StatusCode m)) eqn:E3.
  2: { cbn. rewrite E3. destruct sc; cbn.
       - split; [split; [intros _; auto | reflexivity] | intros p' outs H; discriminate].
       - split; [split; [discriminate | intros [_ H]; discriminate]|].
         intros p' outs H. injection H as <- <-. reflexivity. }
  4: destruct (String.eqb (Message m) "epoch"), va; cbn [negb].
  all: cbn; try rewrite E3; split; [split; [discriminate | intros [H _]; discriminate]|];
    intros p' outs H; injection H as <- <-; cbn; destruct sc; reflexivity.
Qed.

(** A run panics exactly when it sees two exit-family statuses for its key;
    otherwise [p.stop] is closed exactly when it saw one. *)
Lemma run_events_exits (key : string) (evs : list Event) :
  let n := length (filter (fun ev => exit_applied key ev = true) evs) in
  match run_events key initial evs with
  | Some (p, _) => (n <= 1)%nat /\ (stopClosed p = true <-> n = 1%nat)
  | None => (2 <= n)%nat
  end.
Proof.
  induction evs as [|ev evs IH] using rev_ind; cbn zeta in *.
  - cbn. split; [lia|]. split; [discriminate | lia].
  - unfold run_events in *. rewrite fold_left_app, filter_app, length_app. cbn.
    destruct (fold_left _ evs (Some (initial, []))) as [[p0 o0]|] eqn:E0.
    + destruct IH as [Hn Hc].
      pose proof (handle_stop key p0 ev) as [Hnone Hsome].
      destruct (handle key p0 ev) as [[p1 o1]|] eqn:E1.
      * specialize (Hsome p1 o1 eq_refl). rewrite Hsome.
        destruct (exit_applied key ev) eqn:Ex, (stopClosed p0) eqn:Esc; cbn.
        all: rewrite ?decide_True by reflexivity; rewrite ?decide_False by discriminate; cbn.
        -- discriminate (proj2 Hnone (conj eq_refl eq_refl)).
        -- assert (length (filter (fun ev => exit_applied key ev = true) evs) <> 1%nat)
             by (intros Hx; apply Hc in Hx; discriminate).
           split; [lia|]. split; [intros _; lia | reflexivity].
        -- split; [lia|]. rewrite Nat.add_0_r. exact Hc.
        -- split; [lia|]. rewrite Nat.add_0_r. exact Hc.
      * destruct (proj1 Hnone eq_refl) as [Hx Hy]. rewrite Hx, decide_True by reflexivity. cbn.
        apply Hc in Hy. lia.
    + destruct (decide _); cbn; lia.
Qed.

End ActivityMore.

(** X12: handling a sequence of events from the start panics exactly when
    the sequence has at least two exit-family statuses ([exited],
    [withdrawable], [withdrawn]) for the process's key, the second one
    closing the already closed [p.stop]. *)
Theorem run_events_panics_iff (key : string) (evs : list Activity.Event) :
  Activity.run_events key Activity.initial evs = None <->
  (2 <= length (filter (fun ev => Activity.exit_applied key ev = true) evs))%nat.
Proof.
  pose proof (ActivityMore.run_events_exits key evs) as H. cbn zeta in H.
  destruct (Activity.run_events key Activity.initial evs) as [[p o]|].
  - split; [discriminate | lia].
  - split; [intros _; exact H | reflexivity].
Qed.

(** X13: an event that applies no status leaves the process state as it
    is. Such events are connections, undecodable payloads, statuses for
    another key or with an unknown code, epochs, and other message types. *)
Theorem unapplied_event_keeps_state (key : string) (p : Activity.Proc) (ev : Activity.Event)
  (Hna : Activity.applied_status key ev = None) :
  exists outs, Activity.handle key p ev = Some (p, outs).
Proof.
  destruct ev as [|[m|]]; cbn in Hna |- *; [eexists; reflexivity | | eexists; reflexivity].
  destruct (String.eqb (Activity.Message m) "validator_status") eqn:E; cbn [andb] in Hna.
  - destruct (String.eqb key (Activity.Pubkey m)) eqn:E0; cbn [andb negb] in Hna |- *;
      [|eexists; reflexivity].
    destruct (String.eqb (Activity.StatusCode m) "inactive"); cbn [orb] in Hna; [discriminate|].
    destruct (String.eqb (Activity.StatusCode m) "active"); cbn [orb] in Hna; [discriminate|].
    destruct (Activity.is_exit_code (Activity.StatusCode m)); [discriminate|]. eexists; reflexivity.
  - destruct (String.eqb (Activity.Message m) "epoch"), (negb (Activity.validatorActive p));
      eexists; reflexivity.
Qed.

Lemma unapplied_event_keeps_state_witness :
  Activity.applied_status "aa" (status_msg "bb" "exited") = None /\
  exists outs, Activity.handle "aa" Activity.initial (status_msg "bb" "exited")
               = Some (Activity.initial, outs).
Proof.
  assert (H : Activity.applied_status "aa" (status_msg "bb" "exited") = None)
    by (vm_compute; reflexivity).
  exact (conj H (unapplied_event_keeps_state "aa" Activity.initial _ H)).
Defined.

Module ActivityLoop.
Import Activity.

Definition for_key (key : string) (o : Outbound) : Prop :=
  o = GetValidatorStatus key \/ o = ActivityMsg key.

Lemma handle_outs_key (key : string) (p p' : Proc) (ev : Event) (outs : list Outbound) :
  handle key p ev = Some (p', outs) -> Forall (for_key key) outs.
Proof.
  unfold for_key. intros H.
  destruct ev as [|[m|]]; cbn [handle onBeaconClientMessage] in H;
    unfold onBeaconClientConnected in H; repeat case_match; simplify_eq;
    repeat (constructor; [first [left; reflexivity | right; reflexivity]|]);
    constructor.
Qed.

(** Once [p.stop] is closed, handling an event never reopens it. *)
Lemma handle_keeps_stop (key : string) (p p' : Proc) (ev : Event) (outs : list Outbound) :
  handle key p ev = Some (p', outs) -> stopClosed p = true -> stopClosed p' = true.
Proof.
  intros H Hc. rewrite (proj2 (ActivityMore.handle_stop key p ev) p' outs H), Hc. reflexivity.
Qed.

Definition done_inv (l : Loop) : Prop :=
  (doneSent l <= 1)%nat
  /\ (mainWaiting l = true <-> doneSent l = 0%nat)
  /\ (doneSent l = 1%nat -> stopClosed (proc l) = true).

Lemma done_inv_step (key : string) (l l' : Loop) :
  lstep key l l' -> done_inv l -> done_inv l'.
Proof.
  unfold done_inv. intros Hs (H1 & H2 & H3).
  destruct Hs as [l ev p' outs Hsub Hcr Hh|l ev Hsub Hcr Hh|l Hsub Hcr Hc|l Hw Hcr Hc]; cbn.
  - repeat split; try lia; try apply H2; try assumption.
    intros Hd. exact (handle_keeps_stop key (proc l) p' ev outs Hh (H3 Hd)).
  - auto.
  - auto.
  - apply H2 in Hw. rewrite Hw. repeat split; try lia; try discriminate. intros _. exact Hc.
Qed.

End ActivityLoop.

(** X14: everything the running activity process sends to the beacon
    client is a status request or a heartbeat for its own minipool key. *)
Theorem sent_only_own_key (key : string) (l : Activity.Loop)
  (Hreach : rtc (Activity.lstep key) Activity.init_loop l) :
  Forall (fun o => o = Activity.GetValidatorStatus key \/ o = Activity.ActivityMsg key)
    (Activity.sent l).
Proof.
  revert l Hreach.
  apply (rtc_ind_r (fun l => Forall (ActivityLoop.for_key key) (Activity.sent l))).
  - constructor.
  - intros l1 l2 _ Hs IH.
    destruct Hs as [l ev p' outs Hsub Hcr Hh|l ev|l|l]; cbn; try exact IH.
    apply Forall_app. split; [exact IH|]. exact (ActivityLoop.handle_outs_key _ _ _ _ _ Hh).
Qed.

(** The process for key "aa" after a connection and an [active] status. *)
Definition aa_connected_active : Activity.Loop :=
  Activity.mkLoop (Activity.mkProc true false) true true 0 false
    [Activity.GetValidatorStatus "aa"].

Lemma aa_connected_active_reachable :
  rtc (Activity.lstep "aa") Activity.init_loop aa_connected_active.
Proof.
  eapply rtc_l.
  { apply (Activity.lstep_event "aa" Activity.init_loop Activity.Connected
             Activity.initial [Activity.GetValidatorStatus "aa"]); reflexivity. }
  eapply rtc_l.
  { apply (Activity.lstep_event "aa" _ (status_msg "aa" "active")
             (Activity.mkProc true false) []); reflexivity. }
  apply rtc_refl.
Defined.

Lemma sent_only_own_key_witness :
  rtc (Activity.lstep "aa") Activity.init_loop aa_connected_active /\
  Forall (fun o => o = Activity.GetValidatorStatus "aa" \/ o = Activity.ActivityMsg "aa")
    (Activity.sent aa_connected_active).
Proof.
  exact (conj aa_connected_active_reachable
              (sent_only_own_key "aa" _ aa_connected_active_reachable)).
Defined.

(** X15: [start] receives at most one value on [p.done], and only once
    [p.stop] has been closed by an exit-family status. *)
Theorem done_signalled_once (key : string) (l : Activity.Loop)
  (Hreach : rtc (Activity.lstep key) Activity.init_loop l) :
  (Activity.doneSent l <= 1)%nat
  /\ (Activity.doneSent l = 1%nat -> Activity.stopClosed (Activity.proc l) = true).
Proof.
  enough (H : ActivityLoop.done_inv l) by (destruct H as (H1 & _ & H3); split; assumption).
  revert l Hreach. apply (rtc_ind_r ActivityLoop.done_inv).
  - unfold ActivityLoop.done_inv. cbn. split; [lia|]. split; [tauto | discriminate].
  - intros l1 l2 _ Hs IH. exact (ActivityLoop.done_inv_step key l1 l2 Hs IH).
Qed.

(** The process for key "aa" after an [exited] status and the [done] signal. *)
Definition aa_exited_done : Activity.Loop :=
  Activity.mkLoop (Activity.mkProc false true) true false 1 false [].

Lemma aa_exited_done_reachable :
  rtc (Activity.lstep "aa") Activity.init_loop aa_exited_done.
Proof.
  eapply rtc_l.
  { apply (Activity.lstep_event "aa" Activity.init_loop (status_msg "aa" "exited")
             (Activity.mkProc false true) []); reflexivity. }
  eapply rtc_l.
  { apply (Activity.lstep_done "aa" (Activity.mkLoop (Activity.mkProc false true)
             true true 0 false [])); reflexivity. }
  apply rtc_refl.
Defined.

Lemma done_signalled_once_witness :
  rtc (Activity.lstep "aa") Activity.init_loop aa_exited_done /\
  ((Activity.doneSent aa_exited_done <= 1)%nat
   /\ (Activity.doneSent aa_exited_done = 1%nat ->
       Activity.stopClosed (Activity.proc aa_exited_done) = true)).
Proof.
  exact (conj aa_exited_done_reachable
              (done_signalled_once "aa" _ aa_exited_done_reachable)).
Defined.

(** X16: once the event loop has unsubscribed it handles no further event:
    the process state, the messages sent and the subscription stay as they are. *)
Theorem unsubscribed_frozen (key : string) (l l' : Activity.Loop)
  (Hun : Activity.subscribed l = false)
  (Hsteps : rtc (Activity.lstep key) l l') :
  Activity.proc l' = Activity.proc l /\ Activity.sent l' = Activity.sent l
  /\ Activity.subscribed l' = false.
Proof.
  induction Hsteps as [l|l1 l2 l3 Hs _ IH]; [auto|].
  destruct Hs as [l ev p' outs Hsub|l ev Hsub|l Hsub|l Hw Hcr Hc];
    try (rewrite Hun in Hsub; discriminate).
  cbn in IH. destruct (IH Hun) as (H1 & H2 & H3). auto.
Qed.

Definition aa_unsubscribed : Activity.Loop :=
  Activity.mkLoop (Activity.mkProc false true) false true 0 false [].

Lemma unsubscribed_frozen_witness :
  (Activity.subscribed aa_unsubscribed = false /\
   rtc (Activity.lstep "aa") aa_unsubscribed
     (Activity.mkLoop (Activity.mkProc false true) false false 1 false [])) /\
  (Activity.proc (Activity.mkLoop (Activity.mkProc false true) false false 1 false [])
     = Activity.proc aa_unsubscribed
   /\ Activity.sent (Activity.mkLoop (Activity.mkProc false true) false false 1 false [])
     = Activity.sent aa_unsubscribed
   /\ Activity.subscribed (Activity.mkLoop (Activity.mkProc false true) false false 1 false [])
     = false).
Proof.
  assert (Hs : rtc (Activity.lstep "aa") aa_unsubscribed
                 (Activity.mkLoop (Activity.mkProc false true) false false 1 false [])).
  { eapply rtc_l; [apply (Activity.lstep_done "aa" aa_unsubscribed); reflexivity|].
    apply rtc_refl. }
  exact (conj (conj eq_refl Hs) (unsubscribed_frozen "aa" aa_unsubscribed _ eq_refl Hs)).
Defined.

(* ------------------------------------------------------------------ *)
(** ** Further properties: service commands *)

(** X17: for each of the six service commands, the Rocket Pool client is
    closed exactly once for each client operation called, and at most one
    operation is called. An operation is only called once the client was
    obtained; then [rp.Close()] is the last effect and the operation's error
    is returned. When the client cannot be obtained, no operation is called
    and its error is returned, unless the command was cancelled first. *)
Theorem service_client_lifecycle (serviceNames : list string) (env : Service.Env) :
  Forall (fun cmd : Service.Env -> list Service.Effect * option error =>
    let '(fx, ret) := cmd env in
    length (List.filter Service.is_close fx) = length (List.filter Service.is_call fx)
    /\ (length (List.filter Service.is_call fx) <= 1)%nat
    /\ (forall op, In (Service.CallOp op) fx ->
        Service.GetRocketPoolClient env = None /\ last fx = Some Service.CloseClient
        /\ ret = Service.RunOp env op)
    /\ (forall e, Service.GetRocketPoolClient env = Some e ->
        List.filter Service.is_call fx = []
        /\ (ret = Some e \/ In (Service.Print "Cancelled.") fx)))
    (Service.commands serviceNames).
Proof.
  apply List.Forall_forall. intros cmd Hin. cbn in Hin.
  repeat destruct Hin as [<-|Hin]; try destruct Hin;
    unfold Service.serviceStatus, Service.startService, Service.pauseService,
      Service.stopService, Service.serviceLogs, Service.serviceStats;
    try destruct (Service.Confirm env _); cbn [negb];
    destruct (Service.GetRocketPoolClient env) eqn:Ec; cbn;
    (split; [reflexivity|]); (split; [lia|]);
    (split; [intros op Hop; cbn in Hop; intuition congruence|]);
    intros err He; try discriminate; (split; [reflexivity|]); injection He as <-; auto.
Qed.

(** X18: [pauseService] and [stopService] obtain the client only when the
    user confirms their prompt. Declined, they print "Cancelled." and return
    [nil] without touching the service. *)
Theorem confirm_gates_pause_stop (env : Service.Env) :
  (In Service.GetClient (Service.pauseService env).1
   <-> Service.Confirm env Service.pauseQuestion = true)
  /\ (In Service.GetClient (Service.stopService env).1
      <-> Service.Confirm env Service.stopQuestion = true)
  /\ (Service.Confirm env Service.pauseQuestion = false ->
      Service.pauseService env
      = ([Service.Prompt Service.pauseQuestion; Service.Print "Cancelled."], None))
  /\ (Service.Confirm env Service.stopQuestion = false ->
      Service.stopService env
      = ([Service.Prompt Service.stopQuestion; Service.Print "Cancelled."], None)).
Proof.
  unfold Service.pauseService, Service.stopService.
  destruct (Service.Confirm env Service.pauseQuestion), (Service.Confirm env Service.stopQuestion);
    cbn [negb]; destruct (Service.GetRocketPoolClient env); cbn;
    repeat split; intros; try reflexivity; try discriminate; intuition congruence.
Qed.

(* ------------------------------------------------------------------ *)
(** ** Further properties: node status *)

Ltac node_status_cases env :=
  unfold NodeStatus.getNodeStatus;
  destruct (NodeStatus.NodeAccountExists env) eqn:Eacc; cbn [negb];
  repeat case_match; cbn;
  repeat match goal with
  | H : (_ =? _) = true |- _ => apply Z.eqb_eq in H
  | H : (_ =? _) = false |- _ => apply Z.eqb_neq in H
  end; subst.

(** X19: [getNodeStatus] returns [nil] exactly when the node account does
    not exist, or every call up to the registration check succeeds and then
    either the node contract address is zero (not registered) or the contract
    binding, the timezone and the contract balances are all read. *)
Theorem getNodeStatus_nil (env : NodeStatus.Env) :
  (NodeStatus.getNodeStatus env).2 = None <->
  NodeStatus.NodeAccountExists env = false
  \/ (NodeStatus.Dial env = None /\ NodeStatus.NewContractManager env = None
      /\ NodeStatus.LoadContracts env ["rocketNodeAPI"; "rocketPoolToken"] = None
      /\ NodeStatus.LoadABIs env ["rocketNodeContract"] = None
      /\ (exists b, NodeStatus.GetAccountBalances env (NodeStatus.NodeAccountAddress env) = Ok b)
      /\ exists a, NodeStatus.GetContract env (NodeStatus.NodeAccountAddress env) = Ok a
         /\ (a = 0
             \/ (NodeStatus.NewContract env a = None
                 /\ (exists tz, NodeStatus.GetTimezoneLocation env
                                  (NodeStatus.NodeAccountAddress env) = Ok tz)
                 /\ exists b, NodeStatus.GetBalances env a = Ok b))).
Proof.
  node_status_cases env; try naive_solver.
  (* the contract balances fail after every other call succeeded *)
  split; [discriminate|].
  intros [Hf|(_ & _ & _ & _ & _ & a2 & Ha2 & [Hz|(_ & _ & b' & Hb')])]; simplify_eq; congruence.
Qed.

(** X20: without a node account [getNodeStatus] calls nothing and only
    says so. The node contract is only used (bound, its timezone and
    balances read) for the non-zero address [getContract] returned. *)
Theorem getNodeStatus_contract_calls (env : NodeStatus.Env) :
  let '(calls, lines, _) := NodeStatus.getNodeStatus env in
  (NodeStatus.NodeAccountExists env = false -> calls = [] /\ lines = [NodeStatus.NotInitialized])
  /\ (forall c, In c calls -> NodeStatus.is_contract_call c = true ->
      exists a, NodeStatus.GetContract env (NodeStatus.NodeAccountAddress env) = Ok a /\ a <> 0
        /\ (c = NodeStatus.CNewContract a
            \/ c = NodeStatus.CGetTimezoneLocation (NodeStatus.NodeAccountAddress env)
            \/ c = NodeStatus.CGetBalances a)).
Proof.
  node_status_cases env; simplify_eq/=;
    (split; [intros; first [split; reflexivity | discriminate] |]);
    intros c Hc Hk;
    repeat (destruct Hc as [<-|Hc]; [cbn in Hk; try discriminate Hk|]); try contradiction;
    eexists; (split; [reflexivity|]); split; auto.
Qed.

(** X21: [getNodeStatus] prints the registered line for contract [contract],
    timezone [tz] and balances [b] exactly when it returns [nil] for an existing
    node account whose [getContract] returned the non-zero [contract], and the
    timezone and contract balances read are [tz] and [b]. *)
Theorem getNodeStatus_registered_line (env : NodeStatus.Env) (contract : Z) (tz : string)
  (b : NodeStatus.Balances) :
  In (NodeStatus.Registered contract tz b) (NodeStatus.getNodeStatus env).1.2 <->
  (NodeStatus.getNodeStatus env).2 = None
  /\ NodeStatus.NodeAccountExists env = true
  /\ NodeStatus.GetContract env (NodeStatus.NodeAccountAddress env) = Ok contract
  /\ contract <> 0
  /\ NodeStatus.GetTimezoneLocation env (NodeStatus.NodeAccountAddress env) = Ok tz
  /\ NodeStatus.GetBalances env contract = Ok b.
Proof.
  node_status_cases env; try naive_solver.
  (* every call succeeded: the printed lines are the account and registered lines *)
  split.
  - intros [Hl|[Hl|[]]]; [discriminate|]. injection Hl as <- <- <-. auto 7.
  - intros (_ & _ & Hc & _ & Ht & Hb). simplify_eq. rewrite H8 in Hb. simplify_eq. auto.
Qed.

(* ------------------------------------------------------------------ *)
(** ** Further properties: [run] and its goroutine *)

Definition is_info (l : LogLine) : Prop := exists p m, l = Info p m.

Lemma scrubVacantMinipool_info (env : TxEnv) (address : Z) (reason : ScrubReason) :
  Forall is_info (scrubVacantMinipool env address reason).1.1.
Proof.
  unfold scrubVacantMinipool, is_info, printMessage.
  repeat case_match; cbn;
    repeat (constructor; [do 2 eexists; reflexivity|]); constructor.
Qed.

Lemma scan_minipools_info (env : TxEnv) (s : NetworkState.t) (mpds : list MinipoolDetails.t) :
  Forall is_info (scan_minipools env s mpds).1.
Proof.
  assert (Heach : forall address rs, Forall is_info (scrub_each env address rs).1).
  { intros address rs. induction rs as [|r rs IH]; [constructor|]. cbn [scrub_each].
    pose proof (scrubVacantMinipool_info env address r) as Hs.
    destruct (scrubVacantMinipool env address r) as [[l1 t1] e1].
    destruct (scrub_each env address rs) as [l2 t2]. cbn in *.
    apply Forall_app. auto. }
  induction mpds as [|mpd mpds IH]; [constructor|]. cbn [scan_minipools].
  pose proof (Heach (MinipoolDetails.MinipoolAddress mpd) (classify s mpd)) as Hs.
  destruct (scrub_each env _ (classify s mpd)) as [l1 t1].
  destruct (scan_minipools env s mpds) as [l2 t2]. cbn in *.
  apply Forall_app. auto.
Qed.

(** X22: the scan goroutine never reaches [handleError]: it logs no error
    and no failure banner, sends the transactions of [checkSoloMigrations],
    and always leaves [t.isRunning] cleared. *)
Theorem scan_goroutine_never_fails (env : TxEnv) (s : NetworkState.t) :
  let '(logs, txs, flag) := scan_goroutine env s in
  flag = false /\ errors_logged logs = [] /\ ~ In ErrBanner logs
  /\ txs = (checkSoloMigrations env s).1.2.
Proof.
  unfold scan_goroutine, checkSoloMigrations.
  pose proof (scan_minipools_info env s (NetworkState.MinipoolDetails s)) as Hi.
  pose proof (scan_minipools_logs env s (NetworkState.MinipoolDetails s)) as (_ & _ & He).
  destruct (scan_minipools env s _) as [logs txs]. cbn in Hi, He |- *.
  split; [reflexivity|]. split; [exact He|]. split; [|reflexivity].
  intros [Hb|[Hb|Hb]]; [discriminate|discriminate|].
  apply List.Forall_forall with (x := ErrBanner) in Hi; [|exact Hb].
  destruct Hi as (p & m & Hm). discriminate.
Qed.

(** X23: [run] starts the scan goroutine exactly when both clients are
    synced, Atlas is deployed and no scan is marked running. It returns an
    error only from the sync waits, the execution client's first. It logs the
    already-running line exactly when it finds the flag set. *)
Theorem run_sync_spawns (env : SyncEnv) (isAtlasDeployed isRunning : bool) :
  let '(logs, ret, spawned) := run_sync env isAtlasDeployed isRunning in
  (spawned = true <->
   WaitEthClientSynced env = None /\ WaitBeaconClientSynced env = None
   /\ isAtlasDeployed = true /\ isRunning = false)
  /\ (ret <> None ->
      ret = WaitEthClientSynced env
      \/ (WaitEthClientSynced env = None /\ ret = WaitBeaconClientSynced env))
  /\ (In (Info None MsgAlreadyRunning) logs <->
      WaitEthClientSynced env = None /\ WaitBeaconClientSynced env = None
      /\ isAtlasDeployed = true /\ isRunning = true).
Proof.
  unfold run_sync.
  destruct (WaitEthClientSynced env), (WaitBeaconClientSynced env), isAtlasDeployed, isRunning;
    cbn; intuition congruence.
Qed.
